(** * CopyQ item widgets: [src/item/itemwidget.cpp]

    A shallow embedding of the item-widget facade of CopyQ (highlighting,
    the editor data binding, the size policy, the mouse-interaction gate and
    the image-aware paste of the rich-text editor), followed by the
    properties the specification states about them.

    The C++ code drives Qt objects through pointers.  Here every Qt object is
    a record of the part of its state the code reads or writes, a method that
    mutates its receiver returns the new record, and calls whose result
    leaves the process (opening a URL, copying to the clipboard, writing to
    the item model) are collected in traces. *)

From Stdlib Require Import ZArith Bool Ascii String List Lia.
From stdpp Require Import base option list strings gmap.

Import ListNotations.
Local Open Scope string_scope.
Local Open Scope Z_scope.

(** ** Toolkit values *)

(** A [QString]; its characters are the code points below 256. *)
Abbreviation QString := string.

(** A [QByteArray]: a sequence of 8-bit characters. *)
Abbreviation QByteArray := string.

(** [QString::isEmpty]. *)
Definition isEmpty (s : QString) : bool :=
  match s with
  | EmptyString => true
  | String _ _ => false
  end.

Module Qt.

(** [QString::toUtf8] on one character: code points below 128 are one
    byte, the others two. *)
Definition utf8_of_char (c : ascii) : QByteArray :=
  let n := N_of_ascii c in
  if (n <? 128)%N then String c EmptyString
  else String (ascii_of_N (N.lor 192 (N.shiftr n 6)))
         (String (ascii_of_N (N.lor 128 (N.land n 63))) EmptyString).

Fixpoint toUtf8 (s : QString) : QByteArray :=
  match s with
  | EmptyString => EmptyString
  | String c r => utf8_of_char c ++ toUtf8 r
  end.

Definition base64_alphabet : string :=
  "ABCDEFGHIJKLMNOPQRSTUVWXYZabcdefghijklmnopqrstuvwxyz0123456789+/".

Definition base64_digit (n : N) : ascii :=
  match String.get (N.to_nat n) base64_alphabet with
  | Some c => c
  | None => "="%char
  end.

(** [QByteArray::toBase64] with the default options (standard alphabet,
    padded with ['=']). *)
Fixpoint toBase64 (s : QByteArray) : QByteArray :=
  match s with
  | EmptyString => EmptyString
  | String a EmptyString =>
      let x := N_of_ascii a in
      String (base64_digit (N.shiftr x 2))
        (String (base64_digit (N.shiftl (N.land x 3) 4)) "==")
  | String a (String b EmptyString) =>
      let x := N_of_ascii a in
      let y := N_of_ascii b in
      String (base64_digit (N.shiftr x 2))
        (String (base64_digit (N.lor (N.shiftl (N.land x 3) 4) (N.shiftr y 4)))
           (String (base64_digit (N.shiftl (N.land y 15) 2)) "="))
  | String a (String b (String c r)) =>
      let x := N_of_ascii a in
      let y := N_of_ascii b in
      let z := N_of_ascii c in
      String (base64_digit (N.shiftr x 2))
        (String (base64_digit (N.lor (N.shiftl (N.land x 3) 4) (N.shiftr y 4)))
           (String (base64_digit (N.lor (N.shiftl (N.land y 15) 2) (N.shiftr z 6)))
              (String (base64_digit (N.land z 63)) (toBase64 r))))
  end.

Record QSize := mkQSize { width : Z; height : Z }.

Record QPoint := mkQPoint { x : Z; y : Z }.

(** *** Regular expressions, fonts and palettes *)

Inductive PatternSyntax :=
| RegExp | Wildcard | FixedString | RegExp2 | WildcardUnix | W3CXmlSchema11.

Inductive CaseSensitivity := CaseInsensitive | CaseSensitive.

Record QRegExp := mkQRegExp {
  pattern : QString;
  patternSyntax : PatternSyntax;
  caseSensitivity : CaseSensitivity;
  isMinimal : bool
}.

(** [QRegExp()]: the empty pattern. *)
Definition QRegExp_default : QRegExp :=
  mkQRegExp "" RegExp CaseSensitive false.

Definition PatternSyntax_eqb (a b : PatternSyntax) : bool :=
  match a, b with
  | RegExp, RegExp | Wildcard, Wildcard | FixedString, FixedString
  | RegExp2, RegExp2 | WildcardUnix, WildcardUnix
  | W3CXmlSchema11, W3CXmlSchema11 => true
  | _, _ => false
  end.

Definition CaseSensitivity_eqb (a b : CaseSensitivity) : bool :=
  match a, b with
  | CaseInsensitive, CaseInsensitive | CaseSensitive, CaseSensitive => true
  | _, _ => false
  end.

(** [QRegExp::operator==]: same pattern, syntax, case sensitivity and
    minimal-matching flag. *)
Definition QRegExp_eqb (a b : QRegExp) : bool :=
  String.eqb (pattern a) (pattern b)
  && PatternSyntax_eqb (patternSyntax a) (patternSyntax b)
  && CaseSensitivity_eqb (caseSensitivity a) (caseSensitivity b)
  && Bool.eqb (isMinimal a) (isMinimal b).

Record QFont := mkQFont {
  family : QString;
  pointSize : Z;
  bold : bool;
  italic : bool
}.

(** Colours as [0xRRGGBB]. *)
Record QPalette := mkQPalette {
  highlightColor : Z;
  highlightedTextColor : Z
}.

(** *** Text documents and the rich-text editor *)

(** A [QTextFormat] of the document's format collection, by kind and by
    the index of its property set. *)
Inductive QTextFormat :=
| CharFormat (props : nat)
| BlockFormat (props : nat)
| FrameFormat (props : nat)
| ListFormat (props : nat)
| ImageFormat (props : nat).

Record QTextDocument := mkQTextDocument {
  toPlainText : QString;
  toHtml : QString;
  allFormats : list QTextFormat;
  isModified : bool
}.

Definition setModified (m : bool) (d : QTextDocument) : QTextDocument :=
  mkQTextDocument (toPlainText d) (toHtml d) (allFormats d) m.

Record QTextCursor := mkQTextCursor { anchor : Z; position : Z }.

(** [QTextCursor::hasSelection]: anchor and position differ. *)
Definition hasSelection (c : QTextCursor) : bool :=
  negb (anchor c =? position c).

Inductive CursorShape := ArrowCursor | IBeamCursor | PointingHandCursor.

(** [QCursor()] is the arrow. *)
Definition QCursor_default : CursorShape := ArrowCursor.

Inductive FrameShape := NoFrame | StyledPanel.

(** [Qt::TextInteractionFlag]. *)
Definition TextSelectableByMouse : Z := 1.
Definition TextSelectableByKeyboard : Z := 2.
Definition LinksAccessibleByMouse : Z := 4.
Definition LinksAccessibleByKeyboard : Z := 8.
Definition TextEditable : Z := 16.

(** The state of a [QTextEdit] the item widget touches.  [anchorAt] and
    [cursorForPosition] are the hit tests of the document layout in
    viewport coordinates; moving the text cursor, changing the interaction
    flags or the viewport's pointer shape leaves the layout as it is. *)
Record QTextEdit := mkQTextEdit {
  document : QTextDocument;
  textCursor : QTextCursor;
  textInteractionFlags : Z;
  hasMouseTracking : bool;
  viewportCursor : CursorShape;
  frameShape : FrameShape;
  anchorAt : QPoint -> QString;
  cursorForPosition : QPoint -> QTextCursor
}.

Definition setDocument (d : QTextDocument) (e : QTextEdit) : QTextEdit :=
  mkQTextEdit d (textCursor e) (textInteractionFlags e) (hasMouseTracking e)
    (viewportCursor e) (frameShape e) (anchorAt e) (cursorForPosition e).

Definition setTextCursor (c : QTextCursor) (e : QTextEdit) : QTextEdit :=
  mkQTextEdit (document e) c (textInteractionFlags e) (hasMouseTracking e)
    (viewportCursor e) (frameShape e) (anchorAt e) (cursorForPosition e).

Definition setTextInteractionFlags (f : Z) (e : QTextEdit) : QTextEdit :=
  mkQTextEdit (document e) (textCursor e) f (hasMouseTracking e)
    (viewportCursor e) (frameShape e) (anchorAt e) (cursorForPosition e).

Definition setMouseTracking (b : bool) (e : QTextEdit) : QTextEdit :=
  mkQTextEdit (document e) (textCursor e) (textInteractionFlags e) b
    (viewportCursor e) (frameShape e) (anchorAt e) (cursorForPosition e).

(** [edit->viewport()->setCursor(c)]. *)
Definition setViewportCursor (c : CursorShape) (e : QTextEdit) : QTextEdit :=
  mkQTextEdit (document e) (textCursor e) (textInteractionFlags e)
    (hasMouseTracking e) c (frameShape e) (anchorAt e) (cursorForPosition e).

Definition setFrameShape (s : FrameShape) (e : QTextEdit) : QTextEdit :=
  mkQTextEdit (document e) (textCursor e) (textInteractionFlags e)
    (hasMouseTracking e) (viewportCursor e) s (anchorAt e)
    (cursorForPosition e).

(** [QTextEdit::selectAll]: from the start of the document to its end. *)
Definition selectAll (e : QTextEdit) : QTextEdit :=
  setTextCursor
    (mkQTextCursor 0 (Z.of_nat (String.length (toPlainText (document e))))) e.

(** What a pointer to a [QWidget] passed as an editor can be: null, a
    widget of some other class, or a [QTextEdit]. *)
Inductive QWidgetPtr :=
| nullptr
| OtherWidget (name : QString)
| TextEditWidget (e : QTextEdit).

(** [qobject_cast<QTextEdit *>]: null unless the object is a [QTextEdit]. *)
Definition qobject_cast (w : QWidgetPtr) : option QTextEdit :=
  match w with
  | TextEditWidget e => Some e
  | nullptr | OtherWidget _ => None
  end.

(** [QTextEdit::document()] as a pointer: a text edit always owns a
    document, the pointer is never null. *)
Definition document_ptr (e : QTextEdit) : option QTextDocument :=
  Some (document e).

(** *** Plain widgets *)

Inductive FocusPolicy := NoFocus | TabFocus | ClickFocus | StrongFocus.

Record QWidget := mkQWidget {
  objectName : QString;
  focusPolicy : FocusPolicy;
  acceptDrops : bool;
  (** [Qt::WA_TransparentForMouseEvents] *)
  transparentForMouseEvents : bool;
  minimumSize : QSize;
  maximumSize : QSize;
  size : QSize;
  sizeHint : QSize;
  heightForWidth : Z -> Z
}.

Definition QWIDGETSIZE_MAX : Z := 16777215.

(** Size constraints are kept within [0, QWIDGETSIZE_MAX]. *)
Definition constraint (v : Z) : Z := Z.max 0 (Z.min v QWIDGETSIZE_MAX).

Definition setObjectName (n : QString) (w : QWidget) : QWidget :=
  mkQWidget n (focusPolicy w) (acceptDrops w) (transparentForMouseEvents w)
    (minimumSize w) (maximumSize w) (size w) (sizeHint w) (heightForWidth w).

Definition setFocusPolicy (p : FocusPolicy) (w : QWidget) : QWidget :=
  mkQWidget (objectName w) p (acceptDrops w) (transparentForMouseEvents w)
    (minimumSize w) (maximumSize w) (size w) (sizeHint w) (heightForWidth w).

Definition setAcceptDrops (b : bool) (w : QWidget) : QWidget :=
  mkQWidget (objectName w) (focusPolicy w) b (transparentForMouseEvents w)
    (minimumSize w) (maximumSize w) (size w) (sizeHint w) (heightForWidth w).


(** [QWidget::resize]: the size asked for, brought within the minimum
    and the maximum size. *)
Definition resize (s : QSize) (w : QWidget) : QWidget :=
  let bound lo v hi := Z.max lo (Z.min v hi) in
  mkQWidget (objectName w) (focusPolicy w) (acceptDrops w)
    (transparentForMouseEvents w) (minimumSize w) (maximumSize w)
    (mkQSize (bound (width (minimumSize w)) (width s) (width (maximumSize w)))
       (bound (height (minimumSize w)) (height s) (height (maximumSize w))))
    (sizeHint w) (heightForWidth w).

(** [QWidget::setMaximumSize]: a widget larger than the new maximum
    shrinks to it. *)
Definition setMaximumSize (s : QSize) (w : QWidget) : QWidget :=
  let m := mkQSize (constraint (width s)) (constraint (height s)) in
  resize (size w)
    (mkQWidget (objectName w) (focusPolicy w) (acceptDrops w)
       (transparentForMouseEvents w) (minimumSize w) m (size w)
       (sizeHint w) (heightForWidth w)).

(** [QWidget::setFixedSize(w, h)]: minimum and maximum size both become
    [(w, h)], and the widget takes that size.  This is the toolkit for
    sizes below [QWIDGETSIZE_MAX]; that value itself asks the toolkit to
    lift the constraint, which is not told apart here. *)
Definition setFixedSize (wd ht : Z) (w : QWidget) : QWidget :=
  let m := mkQSize (constraint wd) (constraint ht) in
  resize (mkQSize wd ht)
    (mkQWidget (objectName w) (focusPolicy w) (acceptDrops w)
       (transparentForMouseEvents w) m m (size w)
       (sizeHint w) (heightForWidth w)).

(** *** Clipboard payloads *)

Record QMimeData := mkQMimeData {
  (** the representations on offer, by content type *)
  representations : gmap string string;
  hasImage : bool
}.

Definition hasFormat (d : QMimeData) (format : QString) : bool :=
  bool_decide (is_Some (representations d !! format)).

(** [QMimeData::data]: an empty array for a content type not on offer. *)
Definition data (d : QMimeData) (format : QString) : QByteArray :=
  default "" (representations d !! format).

(** *** Variants and the item model *)

#[warnings="-register-all"]
Inductive QVariant :=
| VInvalid
| VBool (b : bool)
| VString (s : QString)
| VByteArray (b : QByteArray)
| VMap (m : gmap string QVariant).

Abbreviation QVariantMap := (gmap string QVariant).

(** [toLower] on one character: the capital letters of Latin-1. *)
Definition toLower_char (c : ascii) : ascii :=
  let n := N_of_ascii c in
  if ((65 <=? n) && (n <=? 90)
      || (192 <=? n) && (n <=? 222) && negb (n =? 215))%N
  then ascii_of_N (n + 32)
  else c.

Fixpoint toLower (s : QString) : QString :=
  match s with
  | EmptyString => EmptyString
  | String c r => String (toLower_char c) (toLower r)
  end.

(** [QVariant::toBool]: a string or byte array is false when, in lower
    case, it is empty, ["0"] or ["false"]. *)
Definition toBool (v : QVariant) : bool :=
  match v with
  | VBool b => b
  | VString s | VByteArray s =>
      let str := toLower s in
      negb (isEmpty str || String.eqb str "0" || String.eqb str "false")
  | VInvalid | VMap _ => false
  end.

Definition toString (v : QVariant) : QString :=
  match v with
  | VBool b => if b then "true" else "false"
  | VString s | VByteArray s => s
  | VInvalid | VMap _ => ""
  end.

(** Modelled from the spec: the role identifiers of [common/contenttype.h]
    ([hasHtml] and [html] to query item data, [updateData] as the write
    mode that merges a mapping into an item), next to Qt's own
    [Qt::EditRole]. *)
Inductive ItemDataRole :=
| EditRole
| contentType_hasHtml
| contentType_html
| contentType_updateData.

(** A [QModelIndex]: a cell of the item model, with what the model answers
    for each role when asked through the index. *)
Record QModelIndex := mkQModelIndex {
  row : Z;
  column : Z;
  index_data : ItemDataRole -> QVariant
}.

(** One call of [QAbstractItemModel::setData]. *)
Record SetData := mkSetData {
  set_index : QModelIndex;
  set_value : QVariant;
  set_role : ItemDataRole
}.

(** The item model behind the abstract interface, as the sequence of the
    writes it has received, oldest first. *)
Record QAbstractItemModel := mkModel { writes : list SetData }.

(** [model->setData(index, value, role)]; the role defaults to
    [Qt::EditRole]. *)
Definition setData (index : QModelIndex) (value : QVariant)
    (role : ItemDataRole) (m : QAbstractItemModel) : QAbstractItemModel :=
  mkModel (writes m ++ [mkSetData index value role]).

(** Mouse buttons and keyboard modifiers. *)
Inductive MouseButton := NoButton | LeftButton | RightButton | MiddleButton.

Definition MouseButton_eqb (a b : MouseButton) : bool :=
  match a, b with
  | NoButton, NoButton | LeftButton, LeftButton
  | RightButton, RightButton | MiddleButton, MiddleButton => true
  | _, _ => false
  end.

(** [Qt::KeyboardModifier]. *)
Definition ShiftModifier : Z := 0x02000000.
Definition ControlModifier : Z := 0x04000000.
Definition AltModifier : Z := 0x08000000.

(** [QEvent::Type], the mouse events and some of the others. *)
Inductive QEventType :=
| MouseButtonPress
| MouseButtonRelease
| MouseButtonDblClick
| MouseMove
| KeyPress
| KeyRelease
| FocusIn
| FocusOut
| Enter
| Leave
| Paint
| Wheel.

(** An event with the fields of [QMouseEvent]; they are read for the four
    mouse events only. *)
Record QEvent := mkQEvent {
  type : QEventType;
  modifiers : Z;
  button : MouseButton;
  pos : QPoint
}.

(** The operations of [QTextEdit] whose result is decided inside the
    toolkit (parsing and laying out text), as an interface. *)
Class TextEditOps := {
  (** [new QTextEdit(parent)] *)
  QTextEdit_new : QTextEdit;
  setPlainText : QString -> QTextEdit -> QTextEdit;
  setHtml : QString -> QTextEdit -> QTextEdit;
  (** [textCursor().insertHtml(html)] *)
  insertHtml : QString -> QTextEdit -> QTextEdit;
  QTextEdit_canInsertFromMimeData : QMimeData -> QTextEdit -> bool;
  QTextEdit_insertFromMimeData : QMimeData -> QTextEdit -> QTextEdit
}.

End Qt.

Import Qt.

(** ** The item widget *)

(** *** Helpers of the anonymous namespace *)

Definition canMouseInteract (event : QEvent) : bool :=
  negb (Z.land (modifiers event) ShiftModifier =? 0).

Definition containsRichText (document : QTextDocument) : bool :=
  (3 <? length (allFormats document))%nat.

Definition imageFormats : list QString :=
  ["image/svg+xml"; "image/png"; "image/bmp"; "image/jpeg"; "image/gif"].

(** The loop of [findImageFormat] over the formats still to try. *)
Fixpoint findFormat (formats : list QString) (data : QMimeData) : QString :=
  match formats with
  | [] => ""
  | format :: rest =>
      if hasFormat data format then format else findFormat rest data
  end.

Definition findImageFormat (data : QMimeData) : QString :=
  findFormat imageFormats data.

(** The double quote, for the attribute of the image tag. *)
Definition dquote : string := String (ascii_of_nat 34) EmptyString.

(** What happens outside the widgets while a mouse event is filtered. *)
Inductive Effect :=
| OpenUrl (url : QString)        (**r [QDesktopServices::openUrl] *)
| Copy (selection : QTextCursor) (**r [edit->copy()] *)
| Accept.                        (**r [e->accept()] *)

(** One call of the virtual [ItemWidget::highlight]. *)
Record Highlight := mkHighlight {
  hl_re : QRegExp;
  hl_font : QFont;
  hl_palette : QPalette
}.

Record ItemWidget := mkItemWidget {
  m_re : QRegExp;
  m_widget : QWidget
}.

Definition widget (iw : ItemWidget) : QWidget := m_widget iw.

(** The constructor; [widget] is not null. *)
Definition ItemWidget_new (widget : QWidget) : ItemWidget :=
  let widget := setObjectName "item" widget in
  let widget := setFocusPolicy NoFocus widget in
  let widget := setMaximumSize (mkQSize 2048 2048) widget in
  let widget := setAcceptDrops false widget in
  mkItemWidget QRegExp_default widget.

(** Returns the widget and the calls of [highlight] it made. *)
Definition setHighlight (re : QRegExp) (highlightFont : QFont)
    (highlightPalette : QPalette) (iw : ItemWidget)
  : ItemWidget * list Highlight :=
  if QRegExp_eqb (m_re iw) re then (iw, [])
  else
    (mkItemWidget re (m_widget iw),
     [mkHighlight re highlightFont highlightPalette]).

Definition hasChanges (editor : QWidgetPtr) : bool :=
  match qobject_cast editor with
  | None => false
  | Some textEdit =>
      match document_ptr textEdit with
      | None => false
      | Some document => isModified document
      end
  end.

Definition createExternalEditor (index : QModelIndex) (parent : QWidgetPtr)
  : option QWidgetPtr := None.

Definition updateSize (maximumSize : QSize) (idealWidth : Z)
    (iw : ItemWidget) : ItemWidget :=
  let w := widget iw in
  let w := setMaximumSize maximumSize w in
  let idealHeight := heightForWidth w idealWidth in
  let maximumHeight := heightForWidth w (width maximumSize) in
  let w :=
    if (idealHeight <=? 0) && (maximumHeight <=? 0) then resize (sizeHint w) w
    else if negb (idealHeight =? maximumHeight) then
      setFixedSize (width maximumSize) maximumHeight w
    else setFixedSize idealWidth idealHeight w in
  mkItemWidget (m_re iw) w.


(** How the [switch] of [filterMouseEvents] is left: by a [return], or by a
    [break] with the value of [allowMouseInteraction]. *)
Inductive Switch :=
| Return (result : bool) (edit : QTextEdit)
| Break (allowMouseInteraction : bool) (edit : QTextEdit) (effects : list Effect).

Definition filterMouseEvents_switch (edit : QTextEdit) (event : QEvent)
  : Switch :=
  match type event with
  | Enter =>
      let edit := setMouseTracking true edit in
      let edit := setViewportCursor QCursor_default edit in
      Return false edit
  | MouseButtonPress | MouseButtonDblClick =>
      if negb (canMouseInteract event) then Break false edit []
      else if MouseButton_eqb (button event) LeftButton then
        Break true (setTextCursor (cursorForPosition edit (pos event)) edit) []
      else Break true edit []
  | MouseMove =>
      if negb (canMouseInteract event) then Break false edit []
      else Break true edit []
  | MouseButtonRelease =>
      if canMouseInteract event && hasSelection (textCursor edit) then
        Break false edit [Copy (textCursor edit)]
      else Break false edit []
  | _ => Return false edit
  end.

(** Returns the result, the text edit afterwards and what was done outside
    it, in order. *)
Definition filterMouseEvents (edit : QTextEdit) (event : QEvent)
  : bool * QTextEdit * list Effect :=
  match filterMouseEvents_switch edit event with
  | Return result edit => (result, edit, [])
  | Break allowMouseInteraction edit effects =>
      let flags := textInteractionFlags edit in
      let flags :=
        if allowMouseInteraction then
          Z.lor (Z.lor flags TextSelectableByMouse) LinksAccessibleByMouse
        else
          Z.land (Z.land flags (Z.lnot TextSelectableByMouse))
            (Z.lnot LinksAccessibleByMouse) in
      let edit := setTextInteractionFlags flags edit in
      match type event with
      | MouseButtonPress | MouseMove =>
          if allowMouseInteraction then
            let anchor := anchorAt edit (pos event) in
            if isEmpty anchor then
              (false, setViewportCursor IBeamCursor edit, effects)
            else
              let edit := setViewportCursor PointingHandCursor edit in
              match type event with
              | MouseButtonPress => (true, edit, (effects ++ [OpenUrl anchor; Accept])%list)
              | _ => (false, edit, effects)
              end
          else (false, setViewportCursor QCursor_default edit, effects)
      | _ => (false, edit, effects)
      end
  end.

Section TextEdit.

Context `{TextEditOps}.

(** *** [TextEdit], the editor with support for pasting images *)

Definition canInsertFromMimeData (source : QMimeData) (edit : QTextEdit)
  : bool :=
  hasImage source || QTextEdit_canInsertFromMimeData source edit.

Definition insertFromMimeData (source : QMimeData) (edit : QTextEdit)
  : QTextEdit :=
  let mime := findImageFormat source in
  if negb (isEmpty mime) then
    let imageData := data source mime in
    insertHtml
      ("<img src=" ++ dquote ++ "data:" ++ mime ++ ";base64,"
         ++ toBase64 imageData ++ dquote ++ " />") edit
  else QTextEdit_insertFromMimeData source edit.

(** *** The editor data binding *)

Definition createEditor (parent : QWidgetPtr) : QWidgetPtr :=
  let editor := QTextEdit_new in
  let editor := setFrameShape NoFrame editor in
  TextEditWidget editor.

Definition setEditorData (editor : QWidgetPtr) (index : QModelIndex)
  : QWidgetPtr :=
  match qobject_cast editor with
  | Some textEdit =>
      let textEdit :=
        if toBool (index_data index contentType_hasHtml) then
          let html := toString (index_data index contentType_html) in
          setHtml html textEdit
        else
          let text := toString (index_data index EditRole) in
          setPlainText text textEdit in
      TextEditWidget (selectAll textEdit)
  | None => editor
  end.

End TextEdit.

(** Returns the model and the editor after the commit. *)
Definition setModelData (editor : QWidgetPtr) (model : QAbstractItemModel)
    (index : QModelIndex) : QAbstractItemModel * QWidgetPtr :=
  match qobject_cast editor with
  | Some textEdit =>
      (* Clear text. *)
      let model := setData index (VString "") EditRole model in
      let data : QVariantMap := ∅ in
      let data := <["text/plain" := VByteArray (toUtf8 (toPlainText (document textEdit)))]> data in
      let data :=
        if containsRichText (document textEdit) then
          <["text/html" := VByteArray (toUtf8 (toHtml (document textEdit)))]> data
        else data in
      let model := setData index (VMap data) contentType_updateData model in
      let textEdit := setDocument (setModified false (document textEdit)) textEdit in
      (model, TextEditWidget textEdit)
  | None => (model, editor)
  end.

(** ** The application object: [src/app/app.cpp] *)

(** A [QTranslator] after [load(filename, directory)]. *)
Record QTranslator := mkQTranslator {
  tr_filename : QString;
  tr_directory : QString
}.

(** The state of the process the application object works on: the
    [QCoreApplication] with its dynamic properties and names, the installed
    translators (oldest first), the default locale, the [QSettings] stores
    by organization and application name (a store maps the full path of a
    key to its value; a key absent from the store reads as an invalid
    variant), the codes passed to [QCoreApplication::exit], the errors
    logged, and what the process reads only: its environment, the name of
    the system locale and the directory of Qt's translations. *)
Record Process := mkProcess {
  properties : gmap string QVariant;
  organizationName : QString;
  applicationName : QString;
  translators : list QTranslator;
  defaultLocale : QString;
  settings : gmap (string * string) (gmap string QVariant);
  exitCalls : list Z;
  errors : list QString;
  systemEnvironment : gmap string string;
  systemLocale : QString;
  translationsPath : QString
}.

(** [m_app->setProperty(name, value)]. *)
Definition setProperty (name : QString) (value : QVariant) (p : Process)
  : Process :=
  mkProcess (<[name := value]> (properties p)) (organizationName p)
    (applicationName p) (translators p) (defaultLocale p) (settings p)
    (exitCalls p) (errors p) (systemEnvironment p) (systemLocale p)
    (translationsPath p).

Definition setOrganizationName (name : QString) (p : Process) : Process :=
  mkProcess (properties p) name (applicationName p) (translators p)
    (defaultLocale p) (settings p) (exitCalls p) (errors p)
    (systemEnvironment p) (systemLocale p) (translationsPath p).

Definition setApplicationName (name : QString) (p : Process) : Process :=
  mkProcess (properties p) (organizationName p) name (translators p)
    (defaultLocale p) (settings p) (exitCalls p) (errors p)
    (systemEnvironment p) (systemLocale p) (translationsPath p).

(** [QCoreApplication::installTranslator]. *)
Definition QCoreApplication_installTranslator (t : QTranslator) (p : Process)
  : Process :=
  mkProcess (properties p) (organizationName p) (applicationName p)
    (translators p ++ [t]) (defaultLocale p) (settings p) (exitCalls p)
    (errors p) (systemEnvironment p) (systemLocale p) (translationsPath p).

(** [QLocale::setDefault(QLocale(name))]. *)
Definition setDefaultLocale (name : QString) (p : Process) : Process :=
  mkProcess (properties p) (organizationName p) (applicationName p)
    (translators p) name (settings p) (exitCalls p) (errors p)
    (systemEnvironment p) (systemLocale p) (translationsPath p).

(** [QCoreApplication::exit(code)]. *)
Definition QCoreApplication_exit (code : Z) (p : Process) : Process :=
  mkProcess (properties p) (organizationName p) (applicationName p)
    (translators p) (defaultLocale p) (settings p) (exitCalls p ++ [code])
    (errors p) (systemEnvironment p) (systemLocale p) (translationsPath p).

(** [log(text, LogError)]. *)
Definition logError (text : QString) (p : Process) : Process :=
  mkProcess (properties p) (organizationName p) (applicationName p)
    (translators p) (defaultLocale p) (settings p) (exitCalls p)
    (errors p ++ [text]) (systemEnvironment p) (systemLocale p)
    (translationsPath p).

(** The store a default-constructed [QSettings] works on. *)
Definition QSettings_store (p : Process) : gmap string QVariant :=
  default ∅ (settings p !! (organizationName p, applicationName p)).

Definition QSettings_setStore (store : gmap string QVariant) (p : Process)
  : Process :=
  mkProcess (properties p) (organizationName p) (applicationName p)
    (translators p) (defaultLocale p)
    (<[(organizationName p, applicationName p) := store]> (settings p))
    (exitCalls p) (errors p) (systemEnvironment p) (systemLocale p)
    (translationsPath p).

(** [QSettings().value(key)]. *)
Definition QSettings_value (key : QString) (p : Process) : QVariant :=
  default VInvalid (QSettings_store p !! key).

(** The full path of [key] inside the groups begun, outermost first. *)
Fixpoint groupKey (groups : list QString) (key : QString) : QString :=
  match groups with
  | [] => key
  | group :: rest => group ++ "/" ++ groupKey rest key
  end.

(** [QVariant::toMap]. *)
Definition toMap (v : QVariant) : gmap string QVariant :=
  match v with
  | VMap m => m
  | _ => ∅
  end.

(** [QProcessEnvironment::value] and [contains]. *)
Definition env_value (env : gmap string string) (name : QString) : QString :=
  default "" (env !! name).

Definition env_contains (env : gmap string string) (name : QString) : bool :=
  bool_decide (is_Some (env !! name)).

(** What the application object gets from outside this file: the two
    build flags, the platform code, the decoding of the test settings and
    the event loop. *)
Class AppPlatform := {
  HAS_TESTS : bool;
  Q_OS_UNIX : bool;
  UnixSignalHandler_create : Process -> bool;
  (** [createPlatformNativeInterface()->loadSettings()] *)
  platform_loadSettings : Process -> Process;
  (** [QByteArray::fromBase64] *)
  fromBase64 : QByteArray -> QByteArray;
  (** [QDataStream(data) >> variant] *)
  QDataStream_read : QByteArray -> QVariant;
  (** [QCoreApplication::exec]: runs the event loop, returns its code *)
  QCoreApplication_exec : Process -> Z * Process;
  QCoreApplication_processEvents : Process -> Process
}.

Record App := mkApp {
  m_exitCode : Z;
  m_closed : bool
}.

(** [installTranslator(filename, directory)]. *)
Definition installTranslatorFile (filename directory : QString) (p : Process)
  : Process :=
  let translator := mkQTranslator filename directory in
  QCoreApplication_installTranslator translator p.

Definition installTranslator (p : Process) : Process :=
  let locale := toString (QSettings_value "Options/language" p) in
  let locale := if isEmpty locale then systemLocale p else locale in
  let p := installTranslatorFile ("qt_" ++ locale) (translationsPath p) p in
  let p := installTranslatorFile ("copyq_" ++ locale) ":/translations" p in
  setDefaultLocale locale p.

(** The session name the constructor builds, apart from what it does with
    it. *)
Definition sessionOf (sessionName : QString) (testing : bool) : QString :=
  let session := "copyq" in
  let session :=
    if negb (isEmpty sessionName) then session ++ ("-" ++ sessionName)
    else session in
  if testing then session ++ ".test" else session.

Section App.

Context `{AppPlatform}.

(** Whether the constructor runs in test mode: built with tests and
    started with a test id. *)
Definition testingOf (p : Process) : bool :=
  HAS_TESTS && negb (isEmpty (env_value (systemEnvironment p) "COPYQ_TEST_ID")).

(** The last block of the constructor: reset the settings on the first run
    of a test case. *)
Definition resetTestSettings (testId : QString) (env : gmap string string)
    (p : Process) : Process :=
  let store : gmap string QVariant := ∅ in
  let data := fromBase64 (env_value env "COPYQ_TEST_SETTINGS") in
  let testSettings := QDataStream_read data in
  let testSettingsMap := toMap testSettings in
  let store :=
    map_fold
      (fun key value store => <[groupKey ["Plugins"; testId] key := value]> store)
      store testSettingsMap in
  let store := <["CopyQ_test_id" := VString testId]> store in
  QSettings_setStore store p.

(** The constructor [App::App(application, sessionName)]. *)
Definition App_new (sessionName : QString) (p : Process) : App * Process :=
  let session := "copyq" in
  let '(session, p) :=
    if negb (isEmpty sessionName) then
      (session ++ ("-" ++ sessionName),
       setProperty "CopyQ_session_name" (VString sessionName) p)
    else (session, p) in
  let env := systemEnvironment p in
  let testId := env_value env "COPYQ_TEST_ID" in
  let testing := HAS_TESTS && negb (isEmpty testId) in
  let '(session, p) :=
    if testing then
      (session ++ ".test", setProperty "CopyQ_test_id" (VString testId) p)
    else (session, p) in
  let p := setOrganizationName session p in
  let p := setApplicationName session p in
  let p :=
    if Q_OS_UNIX && negb (UnixSignalHandler_create p) then
      logError "Failed to create handler for Unix signals!" p
    else p in
  let p := platform_loadSettings p in
  let p := installTranslator p in
  let p :=
    if testing && env_contains env "COPYQ_TEST_SETTINGS" then
      resetTestSettings testId env p
    else p in
  (mkApp 0 false, p).

Definition App_wasClosed (a : App) : bool := m_closed a.

(** Returns the exit code. *)
Definition App_exec (a : App) (p : Process) : Z * Process :=
  if App_wasClosed a then (m_exitCode a, QCoreApplication_processEvents p)
  else QCoreApplication_exec p.

Definition App_exit (exitCode : Z) (a : App) (p : Process) : App * Process :=
  if App_wasClosed a then (a, p)
  else (mkApp exitCode true, QCoreApplication_exit exitCode p).

(** A run of calls of [App::exit], in order. *)
Fixpoint App_exits (exitCodes : list Z) (a : App) (p : Process)
  : App * Process :=
  match exitCodes with
  | [] => (a, p)
  | exitCode :: rest =>
      let '(a, p) := App_exit exitCode a p in
      App_exits rest a p
  end.

End App.

(** ** Runs of calls *)

(** The calls of [setHighlight] for a run of highlight requests, in order;
    returns the item widget and all calls of [highlight] made. *)
Fixpoint setHighlights (requests : list Highlight) (iw : ItemWidget)
  : ItemWidget * list Highlight :=
  match requests with
  | [] => (iw, [])
  | r :: rest =>
      let '(iw, first) := setHighlight (hl_re r) (hl_font r) (hl_palette r) iw in
      let '(iw, more) := setHighlights rest iw in
      (iw, (first ++ more)%list)
  end.

(** A run of events through [filterMouseEvents]; returns the text edit at
    the end and everything done outside it. *)
Fixpoint filterMouseEventsAll (events : list QEvent) (edit : QTextEdit)
  : QTextEdit * list Effect :=
  match events with
  | [] => (edit, [])
  | event :: rest =>
      let '(_, edit, first) := filterMouseEvents edit event in
      let '(edit, more) := filterMouseEventsAll rest edit in
      (edit, (first ++ more)%list)
  end.

(** ** Reading the effects *)

(** The URLs opened, in order. *)
Definition opened (effects : list Effect) : list QString :=
  omap (fun e => match e with OpenUrl url => Some url | _ => None end) effects.

(** The selections copied to the clipboard, in order. *)
Definition copied (effects : list Effect) : list QTextCursor :=
  omap (fun e => match e with Copy c => Some c | _ => None end) effects.

(** How often the pattern changes along a run of patterns that starts from
    the stored one. *)
Fixpoint patternChanges (stored : QRegExp) (patterns : list QRegExp) : nat :=
  match patterns with
  | [] => 0%nat
  | re :: rest =>
      ((if QRegExp_eqb stored re then 0 else 1) + patternChanges re rest)%nat
  end.

(** The characters of base64 output: the alphabet and the padding. *)
Definition isBase64Char (c : ascii) : bool :=
  existsb (Ascii.eqb c) (list_ascii_of_string base64_alphabet)
  || Ascii.eqb c "="%char.

(** Classes of events. *)
Definition isPressOrDblClick (t : QEventType) : bool :=
  match t with
  | MouseButtonPress | MouseButtonDblClick => true
  | _ => false
  end.

Definition isRelease (t : QEventType) : bool :=
  match t with
  | MouseButtonRelease => true
  | _ => false
  end.

Definition isMouseOrEnter (t : QEventType) : bool :=
  match t with
  | Enter | MouseButtonPress | MouseButtonDblClick | MouseMove
  | MouseButtonRelease => true
  | _ => false
  end.

(** The image tag [insertFromMimeData] inserts for a content type and the
    bytes on offer for it. *)
Definition inlineImage (mime : QString) (imageData : QByteArray) : QString :=
  "<img src=" ++ dquote ++ "data:" ++ mime ++ ";base64,"
    ++ toBase64 imageData ++ dquote ++ " />".

(** ** Sample objects

    Concrete toolkit objects, to evaluate the definitions above on. *)

Module Sample.

(** The formats of a document that holds unformatted text only: those of
    the root frame, of the first block and of its characters. *)
Definition plainFormats : list QTextFormat :=
  [FrameFormat 0; BlockFormat 0; CharFormat 0].

Definition plainDocument (text : QString) : QTextDocument :=
  mkQTextDocument text ("<p>" ++ text ++ "</p>") plainFormats false.

Definition emptyEdit : QTextEdit :=
  mkQTextEdit (plainDocument "") (mkQTextCursor 0 0) TextEditable false
    IBeamCursor StyledPanel (fun _ => "") (fun _ => mkQTextCursor 0 0).

(** An instance of the editor interface: plain text is stored as it is,
    HTML is stored unparsed and counted as formatted text, an insertion
    marks the document as modified. *)
Definition ops : TextEditOps := {|
  QTextEdit_new := emptyEdit;
  setPlainText text edit := setDocument (plainDocument text) edit;
  setHtml html edit :=
    setDocument (mkQTextDocument html html (CharFormat 1 :: plainFormats) false)
      edit;
  insertHtml html edit :=
    setDocument
      (mkQTextDocument (toPlainText (document edit))
         (toHtml (document edit) ++ html)
         (ImageFormat 0 :: allFormats (document edit)) true) edit;
  QTextEdit_canInsertFromMimeData source edit :=
    hasFormat source "text/plain";
  QTextEdit_insertFromMimeData source edit :=
    setDocument
      (mkQTextDocument (toPlainText (document edit) ++ data source "text/plain")
         (toHtml (document edit)) (allFormats (document edit)) true) edit
|}.

(** A view whose second line (from 10 to 19 pixels down) is a link, with
    the characters from 4 to 12 selected. *)
Definition linkEdit : QTextEdit :=
  mkQTextEdit
    (mkQTextDocument "see the site for more" "<p>see <a href=x>the site</a></p>"
       (CharFormat 1 :: plainFormats) false)
    (mkQTextCursor 4 12)
    (Z.lor TextSelectableByMouse TextSelectableByKeyboard)
    false ArrowCursor NoFrame
    (fun p => if (10 <=? y p) && (y p <? 20) then "https://example.org" else "")
    (fun p => mkQTextCursor (x p / 8) (x p / 8)).

Definition mouse (t : QEventType) (mods : Z) (b : MouseButton) (px py : Z)
  : QEvent :=
  mkQEvent t mods b (mkQPoint px py).

(** An item whose text is ["abc"], without HTML. *)
Definition abcIndex : QModelIndex :=
  mkQModelIndex 0 0
    (fun role =>
       match role with
       | EditRole => VString "abc"
       | contentType_hasHtml => VBool false
       | _ => VInvalid
       end).

Definition emptyModel : QAbstractItemModel := mkModel [].

(** A label whose text wraps: eighty characters of 8 by 16 pixels. *)
Definition label : QWidget :=
  mkQWidget "" StrongFocus true false (mkQSize 0 0)
    (mkQSize QWIDGETSIZE_MAX QWIDGETSIZE_MAX) (mkQSize 100 30) (mkQSize 640 16)
    (fun w => if w <=? 0 then -1 else 16 * ((640 + w - 1) / w)).

(** A widget without a height for any width. *)
Definition plain : QWidget :=
  mkQWidget "" StrongFocus true false (mkQSize 0 0)
    (mkQSize QWIDGETSIZE_MAX QWIDGETSIZE_MAX) (mkQSize 100 30) (mkQSize 120 40)
    (fun _ => -1).

Definition png_jpeg : QMimeData :=
  mkQMimeData
    (<["image/png" := "PNG"]> (<["image/jpeg" := "JFIF"]> ∅)) true.

Definition text_only : QMimeData :=
  mkQMimeData (<["text/plain" := "hello"]> ∅) false.

Definition needle : QRegExp := mkQRegExp "abc" RegExp CaseInsensitive false.

Definition sans : QFont := mkQFont "Sans" 10 false false.
Definition mono : QFont := mkQFont "Monospace" 12 true false.
Definition yellow : QPalette := mkQPalette 0xffff00 0x000000.
Definition blue : QPalette := mkQPalette 0x0000ff 0xffffff.

(** A platform for the application object: built with tests, on Unix, the
    signal handler is created, nothing is done to load settings, the test
    settings decode to one option, and the event loop runs until the first
    exit asked for. *)
Definition platform : AppPlatform := {|
  HAS_TESTS := true;
  Q_OS_UNIX := true;
  UnixSignalHandler_create _ := true;
  platform_loadSettings p := p;
  fromBase64 bytes := bytes;
  QDataStream_read bytes := VMap (<["style" := VByteArray bytes]> ∅);
  QCoreApplication_exec p := (default 0 (head (exitCalls p)), p);
  QCoreApplication_processEvents p := p
|}.

(** A process started by a user: the session ["copyq"] has Czech chosen as
    its language. *)
Definition userProcess : Process :=
  mkProcess ∅ "" "" [] "C"
    (<[("copyq", "copyq") := <["Options/language" := VString "cs"]> ∅]> ∅)
    [] [] ∅ "en_US" "/usr/share/qt5/translations".

(** A process started by the tests. *)
Definition testProcess : Process :=
  mkProcess ∅ "" "" [] "C"
    (<[("copyq.test", "copyq.test") := <["Options/tabs" := VString "old"]> ∅]>
       (settings userProcess))
    [] []
    (<["COPYQ_TEST_ID" := "itemtext"]> (<["COPYQ_TEST_SETTINGS" := "Zm9v"]> ∅))
    "en_US" "/usr/share/qt5/translations".


End Sample.

(** ** Properties *)

(** *** Equality of regular expressions *)

Lemma PatternSyntax_eqb_eq a b : PatternSyntax_eqb a b = true <-> a = b.
Proof. destruct a, b; simpl; split; congruence. Qed.

Lemma CaseSensitivity_eqb_eq a b : CaseSensitivity_eqb a b = true <-> a = b.
Proof. destruct a, b; simpl; split; congruence. Qed.

Lemma QRegExp_eqb_eq a b : QRegExp_eqb a b = true <-> a = b.
Proof.
  unfold QRegExp_eqb. rewrite !andb_true_iff, String.eqb_eq,
    PatternSyntax_eqb_eq, CaseSensitivity_eqb_eq, Bool.eqb_true_iff.
  destruct a, b; simpl. split.
  - intros [[[-> ->] ->] ->]. reflexivity.
  - intros [= -> -> -> ->]. auto.
Qed.

Lemma QRegExp_eqb_refl a : QRegExp_eqb a a = true.
Proof. apply QRegExp_eqb_eq. reflexivity. Qed.

(** *** Checks of the toolkit values *)

Example toUtf8_ascii : toUtf8 "abc" = "abc".
Proof. reflexivity. Qed.

(** U+00E9 becomes the two bytes C3 A9. *)
Example toUtf8_latin1 :
  toUtf8 (String (ascii_of_nat 233) "t") =
  String (ascii_of_nat 195) (String (ascii_of_nat 169) "t").
Proof. reflexivity. Qed.

Example toBase64_vectors :
  toBase64 "" = "" /\ toBase64 "f" = "Zg==" /\ toBase64 "fo" = "Zm8="
  /\ toBase64 "foo" = "Zm9v" /\ toBase64 "foobar" = "Zm9vYmFy".
Proof. repeat split. Qed.

Example toBool_ignores_case :
  toBool (VString "False") = false /\ toBool (VByteArray "FALSE") = false
  /\ toBool (VString "0") = false /\ toBool (VString "") = false
  /\ toBool (VString "true") = true /\ toBool (VString "1") = true.
Proof. repeat split. Qed.

Example shift_click_can_interact :
  canMouseInteract
    (Sample.mouse MouseButtonPress (Z.lor ShiftModifier ControlModifier)
       LeftButton 0 0) = true
  /\ canMouseInteract
       (Sample.mouse MouseButtonPress ControlModifier LeftButton 0 0) = false.
Proof. split; reflexivity. Qed.

(** A press with Shift on the link of the sample view: the link is opened
    and the event is swallowed; the caret has moved to the press. *)
Example shift_press_on_link :
  let result :=
    filterMouseEvents Sample.linkEdit
      (Sample.mouse MouseButtonPress ShiftModifier LeftButton 40 15) in
  result.1.1 = true
  /\ result.2 = [OpenUrl "https://example.org"; Accept]
  /\ textCursor result.1.2 = mkQTextCursor 5 5
  /\ viewportCursor result.1.2 = PointingHandCursor
  /\ textInteractionFlags result.1.2 = 7.
Proof. repeat split. Qed.

(** The same press as a double click opens nothing. *)
Example shift_double_click_on_link :
  filterMouseEvents Sample.linkEdit
    (Sample.mouse MouseButtonDblClick ShiftModifier LeftButton 40 15)
  = (false,
     setTextInteractionFlags 7
       (setTextCursor (mkQTextCursor 5 5) Sample.linkEdit),
     []).
Proof. reflexivity. Qed.

Example findImageFormat_png_before_jpeg :
  findImageFormat Sample.png_jpeg = "image/png"
  /\ findImageFormat Sample.text_only = "".
Proof. split; reflexivity. Qed.

(** *** Highlighting *)

(** C8: after [setHighlight re font palette], a second call with an equal
    pattern and the same font and palette calls [highlight] no further time
    and leaves the item widget as it is; over the two calls [highlight] is
    called at most once. *)
Theorem setHighlight_idempotent (iw : ItemWidget) (re re' : QRegExp)
    (font : QFont) (palette : QPalette) :
  QRegExp_eqb re re' = true ->
  let first := setHighlight re font palette iw in
  let second := setHighlight re' font palette first.1 in
  second.2 = [] /\ second.1 = first.1
  /\ (length (first.2 ++ second.2) <= 1)%nat.
Proof.
  intros Heq. apply QRegExp_eqb_eq in Heq. subst re'. cbv zeta.
  assert (Hsecond : forall iw1, m_re iw1 = re ->
            setHighlight re font palette iw1 = (iw1, [])).
  { intros iw1 Hre. unfold setHighlight.
    rewrite Hre, QRegExp_eqb_refl. reflexivity. }
  assert (Hfirst : m_re (setHighlight re font palette iw).1 = re
                   /\ (length (setHighlight re font palette iw).2 <= 1)%nat).
  { unfold setHighlight.
    destruct (QRegExp_eqb (m_re iw) re) eqn:Hre; simpl; [|auto].
    apply QRegExp_eqb_eq in Hre. auto. }
  destruct Hfirst as [Hre Hlen].
  rewrite (Hsecond _ Hre). simpl. rewrite app_nil_r. auto.
Qed.

Lemma setHighlight_idempotent_witness :
  let iw := ItemWidget_new Sample.label in
  let first := setHighlight Sample.needle Sample.sans Sample.yellow iw in
  let second := setHighlight Sample.needle Sample.sans Sample.yellow first.1 in
  first.2 = [mkHighlight Sample.needle Sample.sans Sample.yellow]
  /\ second.2 = [] /\ second.1 = first.1
  /\ (length (first.2 ++ second.2) <= 1)%nat.
Proof.
  split; [reflexivity|].
  apply (setHighlight_idempotent (ItemWidget_new Sample.label)
           Sample.needle Sample.needle Sample.sans Sample.yellow).
  reflexivity.
Defined.

(** C10: [setHighlight] compares the pattern only: a call whose pattern
    equals the stored one calls [highlight] not at all and leaves the item
    widget unchanged, whatever font and palette it is given; so after a
    pattern was applied with one font and palette, applying it again with
    another font and palette changes nothing. *)
Theorem setHighlight_compares_pattern_only (iw : ItemWidget) (re : QRegExp)
    (font font' : QFont) (palette palette' : QPalette) :
  (QRegExp_eqb (m_re iw) re = true ->
   setHighlight re font' palette' iw = (iw, []))
  /\ (let applied := (setHighlight re font palette iw).1 in
      setHighlight re font' palette' applied = (applied, [])).
Proof.
  assert (Hguard : forall iw0, QRegExp_eqb (m_re iw0) re = true ->
            setHighlight re font' palette' iw0 = (iw0, [])).
  { intros iw0 Heq. unfold setHighlight. rewrite Heq. reflexivity. }
  split; [apply Hguard|].
  cbv zeta. apply Hguard. unfold setHighlight.
  destruct (QRegExp_eqb (m_re iw) re) eqn:Hre; simpl.
  - exact Hre.
  - apply QRegExp_eqb_refl.
Qed.

Lemma setHighlight_compares_pattern_only_witness :
  let iw := (setHighlight Sample.needle Sample.sans Sample.yellow
               (ItemWidget_new Sample.label)).1 in
  Sample.mono <> Sample.sans /\ Sample.blue <> Sample.yellow
  /\ QRegExp_eqb (m_re iw) Sample.needle = true
  /\ setHighlight Sample.needle Sample.mono Sample.blue iw = (iw, []).
Proof.
  split; [discriminate|]. split; [discriminate|]. split; [reflexivity|].
  destruct (setHighlight_compares_pattern_only
              (setHighlight Sample.needle Sample.sans Sample.yellow
                 (ItemWidget_new Sample.label)).1
              Sample.needle Sample.sans Sample.mono Sample.yellow Sample.blue)
    as [Hguard _].
  apply Hguard. reflexivity.
Defined.

(** *** The editor data binding *)

Lemma containsRichText_spec (d : QTextDocument) :
  containsRichText d = true <-> (3 < length (allFormats d))%nat.
Proof. unfold containsRichText. apply Nat.ltb_lt. Qed.

(** The mapping [setModelData] builds for a document. *)
Lemma committed_data_lookup (d : QTextDocument) (data : QVariantMap) :
  data =
    (if containsRichText d then
       <["text/html" := VByteArray (toUtf8 (toHtml d))]>
         (<["text/plain" := VByteArray (toUtf8 (toPlainText d))]> ∅)
     else <["text/plain" := VByteArray (toUtf8 (toPlainText d))]> ∅) ->
  data !! "text/plain" = Some (VByteArray (toUtf8 (toPlainText d)))
  /\ data !! "text/html" =
       (if containsRichText d then Some (VByteArray (toUtf8 (toHtml d)))
        else None).
Proof.
  intros ->. destruct (containsRichText d).
  - split.
    + rewrite lookup_insert_ne by discriminate. apply lookup_insert_eq.
    + apply lookup_insert_eq.
  - split.
    + apply lookup_insert_eq.
    + rewrite lookup_insert_ne by discriminate. apply lookup_empty.
Qed.

(** What [setModelData] does with a text edit, in one equation. *)
Lemma setModelData_textEdit (textEdit : QTextEdit)
    (model : QAbstractItemModel) (index : QModelIndex) :
  let d := document textEdit in
  setModelData (TextEditWidget textEdit) model index =
    (mkModel
       (writes model ++
          [mkSetData index (VString "") EditRole;
           mkSetData index
             (VMap
                (if containsRichText d then
                   <["text/html" := VByteArray (toUtf8 (toHtml d))]>
                     (<["text/plain" := VByteArray (toUtf8 (toPlainText d))]> ∅)
                 else <["text/plain" := VByteArray (toUtf8 (toPlainText d))]> ∅))
             contentType_updateData]),
     TextEditWidget (setDocument (setModified false d) textEdit)).
Proof.
  unfold setModelData, setData. simpl. rewrite <- app_assoc. reflexivity.
Qed.

(** C1: for an editor that is a text edit, [setModelData] writes to the
    model, in this order, an empty string and then (under [updateData]) a
    mapping that holds the plain text under ["text/plain"] and holds a
    ["text/html"] entry, the document's HTML, exactly when the document has
    more than 3 formats; the editor's document is unmodified afterwards. *)
Theorem setModelData_commits (textEdit : QTextEdit)
    (model : QAbstractItemModel) (index : QModelIndex) :
  exists (data : QVariantMap) (textEdit' : QTextEdit),
    setModelData (TextEditWidget textEdit) model index =
      (mkModel
         (writes model ++
            [mkSetData index (VString "") EditRole;
             mkSetData index (VMap data) contentType_updateData]),
       TextEditWidget textEdit')
    /\ data !! "text/plain" =
         Some (VByteArray (toUtf8 (toPlainText (document textEdit))))
    /\ (is_Some (data !! "text/html")
        <-> (3 < length (allFormats (document textEdit)))%nat)
    /\ (is_Some (data !! "text/html") ->
        data !! "text/html" =
          Some (VByteArray (toUtf8 (toHtml (document textEdit)))))
    /\ isModified (document textEdit') = false.
Proof.
  eexists. eexists. split; [apply setModelData_textEdit|].
  edestruct committed_data_lookup as [Hplain Hhtml]; [reflexivity|].
  split; [exact Hplain|]. rewrite Hhtml, <- containsRichText_spec.
  destruct (containsRichText (document textEdit)); simpl.
  - repeat split; eauto.
  - repeat split; try discriminate; intros [v Hv]; discriminate.
Qed.

(** C9: an editor that is not a text edit (the null pointer included) is
    left alone: [setEditorData] and [setModelData] change neither the
    editor nor the model and [hasChanges] is false; and for every editor
    [hasChanges] is true exactly when it is a text edit whose document is
    modified. *)
Theorem unsupported_editor_ignored `{TextEditOps} (editor : QWidgetPtr)
    (model : QAbstractItemModel) (index : QModelIndex) :
  (qobject_cast editor = None ->
   setEditorData editor index = editor
   /\ setModelData editor model index = (model, editor)
   /\ hasChanges editor = false)
  /\ (hasChanges editor = true
      <-> exists textEdit,
            editor = TextEditWidget textEdit
            /\ isModified (document textEdit) = true).
Proof.
  split.
  - intros Hcast. unfold setEditorData, setModelData, hasChanges.
    rewrite Hcast. auto.
  - unfold hasChanges. destruct editor as [| name | textEdit]; simpl.
    + split; [discriminate | intros (? & [=] & _)].
    + split; [discriminate | intros (? & [=] & _)].
    + split; [eauto | intros (? & [= <-] & Hmod); exact Hmod].
Qed.

Lemma unsupported_editor_ignored_witness :
  qobject_cast (OtherWidget "lineEdit") = None
  /\ @setEditorData Sample.ops (OtherWidget "lineEdit") Sample.abcIndex
     = OtherWidget "lineEdit"
  /\ setModelData nullptr Sample.emptyModel Sample.abcIndex
     = (Sample.emptyModel, nullptr)
  /\ hasChanges (OtherWidget "lineEdit") = false
  /\ hasChanges nullptr = false.
Proof.
  split; [reflexivity|].
  destruct (@unsupported_editor_ignored Sample.ops (OtherWidget "lineEdit")
              Sample.emptyModel Sample.abcIndex) as [Hother _].
  destruct (@unsupported_editor_ignored Sample.ops nullptr
              Sample.emptyModel Sample.abcIndex) as [Hnull _].
  destruct (Hother eq_refl) as (Hset & _ & Hchg).
  destruct (Hnull eq_refl) as (_ & Hmodel & Hchg0).
  auto.
Defined.

(** The round trip of an item without HTML through a fresh editor, in
    terms of the document [d] the toolkit builds from the item's text:
    [setEditorData] and then [setModelData], with no edit in between, write
    the text of [d] back under ["text/plain"], and write no ["text/html"]
    key exactly when [d] has no more than 3 formats.  What the text and the
    formats of [d] are for a given text is decided inside the toolkit. *)
Lemma plain_text_round_trip `{TextEditOps} (parent : QWidgetPtr)
    (model : QAbstractItemModel) (index : QModelIndex) :
  let fresh := setFrameShape NoFrame QTextEdit_new in
  let d := document (setPlainText (toString (index_data index EditRole)) fresh) in
  toBool (index_data index contentType_hasHtml) = false ->
  exists data : QVariantMap,
    writes (setModelData (setEditorData (createEditor parent) index)
              model index).1 =
      (writes model ++
         [mkSetData index (VString "") EditRole;
          mkSetData index (VMap data) contentType_updateData])%list
    /\ data !! "text/plain" = Some (VByteArray (toUtf8 (toPlainText d)))
    /\ (data !! "text/html" = None <-> (length (allFormats d) <= 3)%nat).
Proof.
  intros fresh d HnoHtml.
  unfold createEditor, setEditorData. simpl qobject_cast. cbv iota beta.
  rewrite HnoHtml. fold fresh.
  rewrite setModelData_textEdit. simpl. fold d.
  eexists. split; [reflexivity|].
  edestruct (committed_data_lookup d) as [Hp Hh]; [reflexivity|].
  rewrite Hp, Hh. split; [reflexivity|].
  destruct (containsRichText d) eqn:Hrich.
  - apply containsRichText_spec in Hrich. split; [discriminate | lia].
  - split; [intros _ | reflexivity].
    destruct (Nat.le_gt_cases (length (allFormats d)) 3) as [Hle | Hgt];
      [exact Hle|].
    apply containsRichText_spec in Hgt. congruence.
Qed.

(** With the sample toolkit, whose plain documents have three formats. *)
Example plain_text_round_trip_sample :
  exists data : QVariantMap,
    writes (setModelData
              (@setEditorData Sample.ops (@createEditor Sample.ops nullptr)
                 Sample.abcIndex)
              Sample.emptyModel Sample.abcIndex).1 =
      [mkSetData Sample.abcIndex (VString "") EditRole;
       mkSetData Sample.abcIndex (VMap data) contentType_updateData]
    /\ data !! "text/plain" = Some (VByteArray "abc")
    /\ data !! "text/html" = None.
Proof.
  destruct (@plain_text_round_trip Sample.ops nullptr Sample.emptyModel
              Sample.abcIndex eq_refl) as (data & Hwrites & Hplain & Hhtml).
  exists data. split; [exact Hwrites|]. split; [exact Hplain|].
  apply Hhtml. simpl. lia.
Qed.

(** *** The size policy *)

(** C7: [updateSize maximumSize idealWidth] sets the maximum size, takes the
    widget's height for [idealWidth] and for the maximum width, and then:
    with both heights non-positive it resizes to the size hint; else with
    equal heights it fixes the size to the ideal width and height; else it
    fixes the size to the maximum width and the height for it.  The stored
    pattern is not touched. *)
Theorem updateSize_policy (iw : ItemWidget) (maximumSize : QSize)
    (idealWidth : Z) :
  let w := setMaximumSize maximumSize (widget iw) in
  let idealHeight := heightForWidth w idealWidth in
  let maximumHeight := heightForWidth w (width maximumSize) in
  let after := updateSize maximumSize idealWidth iw in
  (idealHeight <= 0 /\ maximumHeight <= 0 ->
   widget after = resize (sizeHint w) w)
  /\ (~ (idealHeight <= 0 /\ maximumHeight <= 0) ->
      idealHeight = maximumHeight ->
      widget after = setFixedSize idealWidth idealHeight w)
  /\ (~ (idealHeight <= 0 /\ maximumHeight <= 0) ->
      idealHeight <> maximumHeight ->
      widget after = setFixedSize (width maximumSize) maximumHeight w)
  /\ m_re after = m_re iw.
Proof.
  cbv zeta. unfold updateSize. cbv zeta.
  set (w := setMaximumSize maximumSize (widget iw)).
  set (ih := heightForWidth w idealWidth).
  set (mh := heightForWidth w (width maximumSize)).
  change (widget (mkItemWidget (m_re iw) ?x)) with x.
  destruct (Z.leb_spec ih 0) as [Hi | Hi];
    destruct (Z.leb_spec mh 0) as [Hm | Hm]; simpl andb; cbv iota;
    destruct (Z.eqb_spec ih mh) as [He | He]; simpl negb; cbv iota;
    repeat split; intros; try reflexivity; try lia; tauto.
Qed.

Lemma updateSize_policy_witness :
  let wide := mkQSize 640 2048 in
  let huge := mkQSize 2000 2048 in
  let label := ItemWidget_new Sample.label in
  size (widget (updateSize wide 100 (ItemWidget_new Sample.plain)))
    = mkQSize 120 40
  /\ widget (updateSize huge 640 label)
     = setFixedSize 640 16 (setMaximumSize huge (widget label))
  /\ widget (updateSize wide 320 label)
     = setFixedSize 640 16 (setMaximumSize wide (widget label)).
Proof.
  cbv zeta.
  destruct (updateSize_policy (ItemWidget_new Sample.plain) (mkQSize 640 2048) 100)
    as (Hhint & _ & _).
  destruct (updateSize_policy (ItemWidget_new Sample.label) (mkQSize 2000 2048) 640)
    as (_ & Hequal & _).
  destruct (updateSize_policy (ItemWidget_new Sample.label) (mkQSize 640 2048) 320)
    as (_ & _ & Hdiffer & _).
  split; [|split].
  - rewrite Hhint; [reflexivity | vm_compute; split; discriminate].
  - apply Hequal; [vm_compute; intros [Hle _]; apply Hle; reflexivity
                  | reflexivity].
  - apply Hdiffer; [vm_compute; intros [Hle _]; apply Hle; reflexivity
                   | vm_compute; discriminate].
Defined.

(** *** The mouse gate *)

Lemma clear_flag_bit (flags : Z) (n : Z) :
  0 <= n -> Z.land (Z.land flags (Z.lnot (2 ^ n))) (2 ^ n) = 0.
Proof.
  intros Hn. apply Z.bits_inj'. intros m Hm.
  rewrite !Z.land_spec, Z.lnot_spec, Z.bits_0 by lia.
  rewrite Z.pow2_bits_eqb by lia.
  destruct (Z.eqb_spec n m); destruct (Z.testbit flags m); reflexivity.
Qed.

(** The flags after [flags &= ~TextSelectableByMouse;
    flags &= ~LinksAccessibleByMouse]. *)
Lemma cleared_flags (flags : Z) :
  let flags' :=
    Z.land (Z.land flags (Z.lnot TextSelectableByMouse))
      (Z.lnot LinksAccessibleByMouse) in
  Z.land flags' TextSelectableByMouse = 0
  /\ Z.land flags' LinksAccessibleByMouse = 0.
Proof.
  cbv zeta. split.
  - rewrite <- (Z.land_assoc flags), (Z.land_comm (Z.lnot TextSelectableByMouse)),
      (Z.land_assoc flags).
    apply (clear_flag_bit _ 0). lia.
  - apply (clear_flag_bit _ 2). lia.
Qed.

Lemma isEmpty_false (s : QString) : isEmpty s = false <-> s <> "".
Proof. destruct s; simpl; split; congruence. Qed.

(** C3: [filterMouseEvents] returns true exactly for a press with Shift held
    at a position over a link (a non-empty anchor), and then opens that
    link once; for every other event it returns false and opens nothing. *)
Theorem filterMouseEvents_handled_iff (edit : QTextEdit) (event : QEvent) :
  let result := filterMouseEvents edit event in
  let link := anchorAt edit (pos event) in
  (result.1.1 = true
   <-> type event = MouseButtonPress
       /\ canMouseInteract event = true
       /\ link <> "")
  /\ opened result.2 = (if result.1.1 then [link] else []).
Proof.
  cbv zeta. unfold filterMouseEvents, filterMouseEvents_switch.
  destruct (type event) eqn:Htype; simpl;
    destruct (canMouseInteract event) eqn:Hcan; simpl;
    try destruct (MouseButton_eqb (button event) LeftButton); simpl;
    try destruct (hasSelection (textCursor edit)); simpl;
    try destruct (isEmpty (anchorAt edit (pos event))) eqn:Hlink; simpl.
  all: try (split; [split; [discriminate | intros (? & _); discriminate]
                   | reflexivity]).
  all: try (split; [split; [discriminate | intros (_ & ? & _); discriminate]
                   | reflexivity]).
  all: try (split; [split; [discriminate | intros (_ & _ & Hne)]
                   | reflexivity];
            apply isEmpty_false in Hne; congruence).
  all: apply isEmpty_false in Hlink; split; [split; auto | reflexivity].
Qed.

(** C4: a press without Shift is not handled; afterwards neither
    [TextSelectableByMouse] nor [LinksAccessibleByMouse] is set, whatever
    the flags were, and the viewport has the default cursor. *)
Theorem unmodified_press_falls_through (edit : QTextEdit) (event : QEvent) :
  type event = MouseButtonPress ->
  canMouseInteract event = false ->
  let result := filterMouseEvents edit event in
  let edit' := result.1.2 in
  result.1.1 = false
  /\ Z.land (textInteractionFlags edit') TextSelectableByMouse = 0
  /\ Z.land (textInteractionFlags edit') LinksAccessibleByMouse = 0
  /\ viewportCursor edit' = QCursor_default
  /\ result.2 = [].
Proof.
  intros Htype Hcan. cbv zeta.
  unfold filterMouseEvents, filterMouseEvents_switch.
  rewrite Htype, Hcan. simpl.
  destruct (cleared_flags (textInteractionFlags edit)) as [Hsel Hlinks].
  auto.
Qed.

Lemma unmodified_press_falls_through_witness :
  let event := Sample.mouse MouseButtonPress ControlModifier LeftButton 40 15 in
  let result := filterMouseEvents Sample.linkEdit event in
  Z.land (textInteractionFlags Sample.linkEdit) TextSelectableByMouse = 1
  /\ result.1.1 = false
  /\ Z.land (textInteractionFlags result.1.2) TextSelectableByMouse = 0
  /\ Z.land (textInteractionFlags result.1.2) LinksAccessibleByMouse = 0
  /\ viewportCursor result.1.2 = QCursor_default
  /\ result.2 = [].
Proof.
  split; [reflexivity|].
  apply (unmodified_press_falls_through Sample.linkEdit
           (Sample.mouse MouseButtonPress ControlModifier LeftButton 40 15));
    reflexivity.
Defined.

(** C5: a release with Shift held while the text cursor has a selection
    copies the selection once; any other release copies nothing; after
    either, neither [TextSelectableByMouse] nor [LinksAccessibleByMouse] is
    set, and the event is not handled. *)
Theorem release_copies_selection (edit : QTextEdit) (event : QEvent) :
  type event = MouseButtonRelease ->
  let result := filterMouseEvents edit event in
  let edit' := result.1.2 in
  (canMouseInteract event = true /\ hasSelection (textCursor edit) = true ->
   result.2 = [Copy (textCursor edit)])
  /\ (~ (canMouseInteract event = true /\ hasSelection (textCursor edit) = true) ->
      result.2 = [])
  /\ Z.land (textInteractionFlags edit') TextSelectableByMouse = 0
  /\ Z.land (textInteractionFlags edit') LinksAccessibleByMouse = 0
  /\ result.1.1 = false.
Proof.
  intros Htype. cbv zeta.
  unfold filterMouseEvents, filterMouseEvents_switch. rewrite Htype.
  destruct (cleared_flags (textInteractionFlags edit)) as [Hsel Hlinks].
  destruct (canMouseInteract event), (hasSelection (textCursor edit)); simpl;
    repeat split; auto; try (intros [? ?]; discriminate);
    intros Hnot; exfalso; apply Hnot; auto.
Qed.

Lemma release_copies_selection_witness :
  let shift := Sample.mouse MouseButtonRelease ShiftModifier LeftButton 40 15 in
  let bare := Sample.mouse MouseButtonRelease 0 LeftButton 40 15 in
  copied (filterMouseEvents Sample.linkEdit shift).2 = [mkQTextCursor 4 12]
  /\ (filterMouseEvents Sample.linkEdit bare).2 = []
  /\ Z.land (textInteractionFlags (filterMouseEvents Sample.linkEdit shift).1.2)
       TextSelectableByMouse = 0.
Proof.
  cbv zeta.
  destruct (release_copies_selection Sample.linkEdit
              (Sample.mouse MouseButtonRelease ShiftModifier LeftButton 40 15)
              eq_refl) as (Hcopy & _ & Hsel & _).
  destruct (release_copies_selection Sample.linkEdit
              (Sample.mouse MouseButtonRelease 0 LeftButton 40 15)
              eq_refl) as (_ & Hnone & _).
  split; [rewrite Hcopy; [reflexivity | split; reflexivity]|].
  split; [apply Hnone; intros [Hcan _]; discriminate Hcan | exact Hsel].
Defined.

(** *** Pasting images *)

Lemma findFormat_first (formats : list QString) (source : QMimeData)
    (i : nat) (format : QString) :
  formats !! i = Some format ->
  hasFormat source format = true ->
  (forall j other, (j < i)%nat -> formats !! j = Some other ->
                   hasFormat source other = false) ->
  findFormat formats source = format.
Proof.
  revert i. induction formats as [| first rest IH]; intros i Hi Hhas Hbefore.
  - discriminate.
  - destruct i as [| i]; simpl in *.
    + injection Hi as ->. rewrite Hhas. reflexivity.
    + rewrite (Hbefore 0%nat first) by (lia || reflexivity).
      apply (IH i Hi Hhas). intros j other Hj Hother.
      apply (Hbefore (S j) other); [lia | exact Hother].
Qed.

Lemma findFormat_none (formats : list QString) (source : QMimeData) :
  (forall format, In format formats -> hasFormat source format = false) ->
  findFormat formats source = "".
Proof.
  induction formats as [| first rest IH]; intros Hnone; simpl.
  - reflexivity.
  - rewrite (Hnone first) by (left; reflexivity).
    apply IH. intros format Hin. apply Hnone. right. exact Hin.
Qed.

Lemma imageFormats_not_empty (i : nat) (format : QString) :
  imageFormats !! i = Some format -> isEmpty format = false.
Proof.
  unfold imageFormats.
  do 5 (destruct i as [| i]; [intros [= <-]; reflexivity|]).
  discriminate.
Qed.

(** C6: the image inserted on paste is that of the first content type, in
    the order SVG, PNG, BMP, JPEG, GIF, that the payload offers, as an
    [img] tag with a base64 data URI; so a payload with PNG and JPEG (and
    no SVG, which precedes both) yields the PNG image; a payload with none
    of the five is pasted by [QTextEdit::insertFromMimeData]. *)
Theorem image_paste_priority `{TextEditOps} (source : QMimeData)
    (edit : QTextEdit) :
  imageFormats =
    ["image/svg+xml"; "image/png"; "image/bmp"; "image/jpeg"; "image/gif"]
  /\ (forall i format,
        imageFormats !! i = Some format ->
        hasFormat source format = true ->
        (forall j other, (j < i)%nat -> imageFormats !! j = Some other ->
                         hasFormat source other = false) ->
        findImageFormat source = format
        /\ insertFromMimeData source edit =
             insertHtml (inlineImage format (data source format)) edit)
  /\ (hasFormat source "image/png" = true ->
      hasFormat source "image/jpeg" = true ->
      hasFormat source "image/svg+xml" = false ->
      insertFromMimeData source edit =
        insertHtml (inlineImage "image/png" (data source "image/png")) edit)
  /\ ((forall format, In format imageFormats ->
                      hasFormat source format = false) ->
      insertFromMimeData source edit =
        QTextEdit_insertFromMimeData source edit).
Proof.
  assert (Hfirst : forall i format,
            imageFormats !! i = Some format ->
            hasFormat source format = true ->
            (forall j other, (j < i)%nat -> imageFormats !! j = Some other ->
                             hasFormat source other = false) ->
            findImageFormat source = format
            /\ insertFromMimeData source edit =
                 insertHtml (inlineImage format (data source format)) edit).
  { intros i format Hi Hhas Hbefore.
    assert (Hfound : findImageFormat source = format)
      by (apply (findFormat_first _ _ i); assumption).
    split; [exact Hfound|].
    unfold insertFromMimeData. rewrite Hfound.
    rewrite (imageFormats_not_empty i format Hi). reflexivity. }
  split; [reflexivity|]. split; [exact Hfirst|]. split.
  - intros Hpng Hjpeg Hsvg.
    apply (Hfirst 1%nat "image/png"); [reflexivity | exact Hpng |].
    intros j other Hj Hother. destruct j as [| j]; [|lia].
    injection Hother as <-. exact Hsvg.
  - intros Hnone. unfold insertFromMimeData, findImageFormat.
    rewrite (findFormat_none _ _ Hnone). reflexivity.
Qed.

Lemma image_paste_priority_witness :
  @insertFromMimeData Sample.ops Sample.png_jpeg Sample.emptyEdit =
    @insertHtml Sample.ops
      ("<img src=" ++ dquote ++ "data:image/png;base64,UE5H" ++ dquote ++ " />")
      Sample.emptyEdit
  /\ @insertFromMimeData Sample.ops Sample.text_only Sample.emptyEdit =
       @QTextEdit_insertFromMimeData Sample.ops Sample.text_only Sample.emptyEdit.
Proof.
  destruct (@image_paste_priority Sample.ops Sample.png_jpeg Sample.emptyEdit)
    as (_ & _ & Hpng & _).
  destruct (@image_paste_priority Sample.ops Sample.text_only Sample.emptyEdit)
    as (_ & _ & _ & Hnone).
  split.
  - rewrite Hpng; reflexivity.
  - apply Hnone. intros format Hin. simpl in Hin.
    repeat (destruct Hin as [<- | Hin]; [reflexivity|]). destruct Hin.
Defined.

(** ** Further properties of the mouse gate *)

Lemma testbit_1 (n : Z) : Z.testbit 1 n = (0 =? n).
Proof.
  destruct (Z.neg_nonneg_cases n) as [Hn | Hn].
  - rewrite Z.testbit_neg_r by lia. symmetry. apply Z.eqb_neq. lia.
  - apply (Z.pow2_bits_eqb 0 n). lia.
Qed.

Lemma testbit_4 (n : Z) : Z.testbit 4 n = (2 =? n).
Proof.
  destruct (Z.neg_nonneg_cases n) as [Hn | Hn].
  - rewrite Z.testbit_neg_r by lia. symmetry. apply Z.eqb_neq. lia.
  - apply (Z.pow2_bits_eqb 2 n). lia.
Qed.

(** The bits of the flags after the two [|=]. *)
Lemma testbit_flags_set (flags n : Z) :
  0 <= n ->
  Z.testbit
    (Z.lor (Z.lor flags TextSelectableByMouse) LinksAccessibleByMouse) n
  = Z.testbit flags n || (0 =? n) || (2 =? n).
Proof.
  intros Hn. unfold TextSelectableByMouse, LinksAccessibleByMouse.
  rewrite !Z.lor_spec, testbit_1, testbit_4. reflexivity.
Qed.

(** The bits of the flags after the two [&= ~]. *)
Lemma testbit_flags_cleared (flags n : Z) :
  0 <= n ->
  Z.testbit
    (Z.land (Z.land flags (Z.lnot TextSelectableByMouse))
       (Z.lnot LinksAccessibleByMouse)) n
  = Z.testbit flags n && negb (0 =? n) && negb (2 =? n).
Proof.
  intros Hn. unfold TextSelectableByMouse, LinksAccessibleByMouse.
  rewrite !Z.land_spec, !Z.lnot_spec, testbit_1, testbit_4 by lia.
  reflexivity.
Qed.

(** The flags [filterMouseEvents] leaves: those it found, or those with the
    two mouse flags both set or both cleared. *)
Lemma filterMouseEvents_flags (edit : QTextEdit) (event : QEvent) :
  let flags := textInteractionFlags edit in
  let flags' := textInteractionFlags (filterMouseEvents edit event).1.2 in
  flags' = flags
  \/ flags' = Z.lor (Z.lor flags TextSelectableByMouse) LinksAccessibleByMouse
  \/ flags' = Z.land (Z.land flags (Z.lnot TextSelectableByMouse))
                (Z.lnot LinksAccessibleByMouse).
Proof.
  cbv zeta. unfold filterMouseEvents, filterMouseEvents_switch.
  destruct (type event); simpl; auto;
    destruct (canMouseInteract event); simpl; auto;
    try destruct (MouseButton_eqb (button event) LeftButton); simpl; auto;
    try destruct (hasSelection (textCursor edit)); simpl; auto;
    try destruct (isEmpty (anchorAt edit (pos event))); simpl; auto.
Qed.

(** What one event leaves alone. *)
Lemma filterMouseEvents_frame (edit : QTextEdit) (event : QEvent) :
  let edit' := (filterMouseEvents edit event).1.2 in
  document edit' = document edit
  /\ anchorAt edit' = anchorAt edit
  /\ cursorForPosition edit' = cursorForPosition edit
  /\ frameShape edit' = frameShape edit.
Proof.
  cbv zeta. unfold filterMouseEvents, filterMouseEvents_switch.
  destruct (type event); simpl; auto;
    destruct (canMouseInteract event); simpl; auto;
    try destruct (MouseButton_eqb (button event) LeftButton); simpl; auto;
    try destruct (hasSelection (textCursor edit)); simpl; auto;
    try destruct (isEmpty (anchorAt edit (pos event))); simpl; auto.
Qed.

Lemma filterMouseEvents_other_bits (edit : QTextEdit) (event : QEvent)
    (n : Z) :
  n <> 0 -> n <> 2 ->
  Z.testbit (textInteractionFlags (filterMouseEvents edit event).1.2) n
  = Z.testbit (textInteractionFlags edit) n.
Proof.
  intros H0 H2. destruct (Z.neg_nonneg_cases n) as [Hn | Hn].
  { rewrite !Z.testbit_neg_r by lia. reflexivity. }
  assert (He0 : (0 =? n) = false) by (apply Z.eqb_neq; lia).
  assert (He2 : (2 =? n) = false) by (apply Z.eqb_neq; lia).
  destruct (filterMouseEvents_flags edit event) as [-> | [-> | ->]].
  - reflexivity.
  - rewrite testbit_flags_set, He0, He2 by lia. rewrite !orb_false_r.
    reflexivity.
  - rewrite testbit_flags_cleared, He0, He2 by lia. simpl.
    rewrite !andb_true_r. reflexivity.
Qed.

(** X1: whatever events pass through the gate, in whatever order, the text
    edit keeps its document (text, HTML, formats, modified flag), its layout
    hit tests and its frame: the gate never edits. *)
Theorem gate_never_edits (events : list QEvent) (edit : QTextEdit) :
  let edit' := (filterMouseEventsAll events edit).1 in
  document edit' = document edit
  /\ anchorAt edit' = anchorAt edit
  /\ cursorForPosition edit' = cursorForPosition edit
  /\ frameShape edit' = frameShape edit.
Proof.
  cbv zeta. revert edit.
  induction events as [| event rest IH]; intros edit; simpl.
  - auto.
  - destruct (filterMouseEvents_frame edit event) as (Hd & Ha & Hc & Hf).
    destruct (filterMouseEvents edit event) as [[handled edit1] first].
    simpl in Hd, Ha, Hc, Hf.
    specialize (IH edit1).
    destruct (filterMouseEventsAll rest edit1) as [edit2 more]. simpl in *.
    destruct IH as (Hd2 & Ha2 & Hc2 & Hf2).
    rewrite Hd2, Ha2, Hc2, Hf2. auto.
Qed.

(** X2: of the text interaction flags, a run of events changes
    [TextSelectableByMouse] (bit 0) and [LinksAccessibleByMouse] (bit 2)
    only: the keyboard flags and [TextEditable] stay as they were. *)
Theorem gate_keeps_other_flags (events : list QEvent) (edit : QTextEdit)
    (n : Z) :
  n <> 0 -> n <> 2 ->
  Z.testbit (textInteractionFlags (filterMouseEventsAll events edit).1) n
  = Z.testbit (textInteractionFlags edit) n.
Proof.
  intros H0 H2. revert edit.
  induction events as [| event rest IH]; intros edit; simpl.
  - reflexivity.
  - pose proof (filterMouseEvents_other_bits edit event n H0 H2) as Hone.
    destruct (filterMouseEvents edit event) as [[handled edit1] first].
    simpl in Hone. specialize (IH edit1).
    destruct (filterMouseEventsAll rest edit1) as [edit2 more]. simpl in *.
    congruence.
Qed.

Lemma gate_keeps_other_flags_witness :
  let events :=
    [Sample.mouse Enter 0 NoButton 3 3;
     Sample.mouse MouseButtonPress ShiftModifier LeftButton 40 3;
     Sample.mouse MouseMove ShiftModifier LeftButton 60 3;
     Sample.mouse MouseButtonRelease ShiftModifier LeftButton 60 3] in
  Z.testbit (textInteractionFlags Sample.linkEdit) 1 = true
  /\ Z.testbit (textInteractionFlags (filterMouseEventsAll events Sample.linkEdit).1) 1
     = true
  /\ Z.testbit (textInteractionFlags (filterMouseEventsAll events Sample.linkEdit).1) 0
     = false.
Proof.
  cbv zeta. split; [reflexivity|]. split; [|reflexivity].
  rewrite gate_keeps_other_flags by discriminate. reflexivity.
Defined.

(** X3: a press, a double click or a move with Shift held leaves both
    [TextSelectableByMouse] and [LinksAccessibleByMouse] set, whatever the
    flags were. *)
Theorem modified_event_enables_interaction (edit : QTextEdit)
    (event : QEvent) :
  type event = MouseButtonPress \/ type event = MouseButtonDblClick
  \/ type event = MouseMove ->
  canMouseInteract event = true ->
  let flags' := textInteractionFlags (filterMouseEvents edit event).1.2 in
  Z.testbit flags' 0 = true /\ Z.testbit flags' 2 = true.
Proof.
  intros Htype Hcan. cbv zeta.
  assert (Hflags :
    textInteractionFlags (filterMouseEvents edit event).1.2
    = Z.lor (Z.lor (textInteractionFlags edit) TextSelectableByMouse)
        LinksAccessibleByMouse).
  { unfold filterMouseEvents, filterMouseEvents_switch. rewrite Hcan.
    destruct Htype as [-> | [-> | ->]]; simpl;
      try destruct (MouseButton_eqb (button event) LeftButton); simpl;
      destruct (isEmpty (anchorAt edit (pos event))); reflexivity. }
  rewrite Hflags, !testbit_flags_set by lia.
  split; [apply orb_true_iff; left; apply orb_true_r | apply orb_true_r].
Qed.

Lemma modified_event_enables_interaction_witness :
  let edit := setTextInteractionFlags TextEditable Sample.linkEdit in
  let event := Sample.mouse MouseMove ShiftModifier NoButton 40 3 in
  let flags' := textInteractionFlags (filterMouseEvents edit event).1.2 in
  Z.testbit (textInteractionFlags edit) 0 = false
  /\ Z.testbit flags' 0 = true /\ Z.testbit flags' 2 = true.
Proof.
  split; [reflexivity|].
  apply (modified_event_enables_interaction
           (setTextInteractionFlags TextEditable Sample.linkEdit)
           (Sample.mouse MouseMove ShiftModifier NoButton 40 3)).
  - right. right. reflexivity.
  - reflexivity.
Defined.

Ltac gate_cases edit event :=
  unfold filterMouseEvents, filterMouseEvents_switch;
  destruct (type event); simpl;
  destruct (canMouseInteract event); simpl;
  try destruct (MouseButton_eqb (button event) LeftButton); simpl;
  try destruct (hasSelection (textCursor edit)); simpl;
  try destruct (isEmpty (anchorAt edit (pos event))); simpl.

(** X4: the caret moves in one case only, a press or double click of the
    left button with Shift held, and then to the position of the click;
    every other event leaves the text cursor, and with it the selection,
    as it was. *)
Theorem caret_moves_on_modified_left_click (edit : QTextEdit)
    (event : QEvent) :
  textCursor (filterMouseEvents edit event).1.2 =
    if isPressOrDblClick (type event) && canMouseInteract event
       && MouseButton_eqb (button event) LeftButton
    then cursorForPosition edit (pos event)
    else textCursor edit.
Proof. gate_cases edit event; reflexivity. Qed.

(** X5: the clipboard is written on a release with Shift held over a
    selection and on no other event, and the event is accepted exactly
    when it is reported as handled. *)
Theorem copy_on_release_only (edit : QTextEdit) (event : QEvent) :
  let result := filterMouseEvents edit event in
  copied result.2 =
    (if isRelease (type event) && canMouseInteract event
        && hasSelection (textCursor edit)
     then [textCursor edit] else [])
  /\ (In Accept result.2 <-> result.1.1 = true).
Proof.
  cbv zeta. gate_cases edit event;
    (split; [reflexivity|]); simpl; intuition discriminate.
Qed.

Lemma lor_flags_idempotent (flags : Z) :
  let set f := Z.lor (Z.lor f TextSelectableByMouse) LinksAccessibleByMouse in
  set (set flags) = set flags.
Proof.
  cbv zeta. apply Z.bits_inj'. intros n Hn.
  rewrite !testbit_flags_set by lia.
  destruct (Z.testbit flags n), (0 =? n), (2 =? n); reflexivity.
Qed.

Lemma land_flags_idempotent (flags : Z) :
  let clear f :=
    Z.land (Z.land f (Z.lnot TextSelectableByMouse))
      (Z.lnot LinksAccessibleByMouse) in
  clear (clear flags) = clear flags.
Proof.
  cbv zeta. apply Z.bits_inj'. intros n Hn.
  rewrite !testbit_flags_cleared by lia.
  destruct (Z.testbit flags n), (0 =? n), (2 =? n); reflexivity.
Qed.

(** X6: filtering the same event a second time changes nothing more: the
    second pass returns the same result, leaves the text edit as the first
    pass left it and asks for the same outside actions. *)
Theorem filterMouseEvents_settles (edit : QTextEdit) (event : QEvent) :
  filterMouseEvents (filterMouseEvents edit event).1.2 event
  = filterMouseEvents edit event.
Proof.
  pose proof (lor_flags_idempotent (textInteractionFlags edit)) as Hset.
  pose proof (land_flags_idempotent (textInteractionFlags edit)) as Hclear.
  cbv zeta in Hset, Hclear.
  unfold filterMouseEvents, filterMouseEvents_switch.
  destruct (type event) eqn:Htype; simpl; try reflexivity;
    destruct (canMouseInteract event) eqn:Hcan; simpl;
    try destruct (MouseButton_eqb (button event) LeftButton) eqn:Hleft; simpl;
    try destruct (hasSelection (textCursor edit)) eqn:Hsel; simpl;
    try destruct (isEmpty (anchorAt edit (pos event))) eqn:Hlink; simpl;
    rewrite ?Htype, ?Hcan, ?Hleft, ?Hsel, ?Hlink; simpl;
    rewrite ?Hlink; simpl;
    unfold setViewportCursor, setTextInteractionFlags, setTextCursor,
      setMouseTracking; simpl;
    rewrite ?Hset, ?Hclear; reflexivity.
Qed.

(** X7: moving the mouse never opens a link, copies or swallows the event;
    it only shows, with Shift held, the hand over a link and the text caret
    elsewhere, and without Shift the default cursor. *)
Theorem hover_only_changes_cursor (edit : QTextEdit) (event : QEvent) :
  type event = MouseMove ->
  let result := filterMouseEvents edit event in
  result.1.1 = false
  /\ result.2 = []
  /\ textCursor result.1.2 = textCursor edit
  /\ viewportCursor result.1.2 =
       (if canMouseInteract event then
          if isEmpty (anchorAt edit (pos event)) then IBeamCursor
          else PointingHandCursor
        else QCursor_default).
Proof.
  intros Htype. cbv zeta.
  unfold filterMouseEvents, filterMouseEvents_switch. rewrite Htype.
  destruct (canMouseInteract event); simpl;
    try destruct (isEmpty (anchorAt edit (pos event))); simpl; auto.
Qed.

Lemma hover_only_changes_cursor_witness :
  let over_link := Sample.mouse MouseMove ShiftModifier NoButton 40 15 in
  let result := filterMouseEvents Sample.linkEdit over_link in
  result.1.1 = false /\ result.2 = []
  /\ textCursor result.1.2 = mkQTextCursor 4 12
  /\ viewportCursor result.1.2 = PointingHandCursor.
Proof.
  apply (hover_only_changes_cursor Sample.linkEdit
           (Sample.mouse MouseMove ShiftModifier NoButton 40 15)).
  reflexivity.
Defined.

(** X8: an event that is neither a mouse event nor Enter passes through
    untouched; Enter switches mouse tracking on and shows the default
    cursor, does nothing else and is not handled. *)
Theorem other_events_pass (edit : QTextEdit) (event : QEvent) :
  (isMouseOrEnter (type event) = false ->
   filterMouseEvents edit event = (false, edit, []))
  /\ (type event = Enter ->
      filterMouseEvents edit event =
        (false,
         mkQTextEdit (document edit) (textCursor edit)
           (textInteractionFlags edit) true QCursor_default (frameShape edit)
           (anchorAt edit) (cursorForPosition edit),
         [])).
Proof.
  unfold filterMouseEvents, filterMouseEvents_switch.
  split; intros Htype.
  - destruct (type event); simpl in *; try discriminate; reflexivity.
  - rewrite Htype. reflexivity.
Qed.

Lemma other_events_pass_witness :
  filterMouseEvents Sample.linkEdit (Sample.mouse KeyPress ShiftModifier NoButton 0 0)
    = (false, Sample.linkEdit, [])
  /\ hasMouseTracking
       (filterMouseEvents Sample.linkEdit (Sample.mouse Enter 0 NoButton 0 0)).1.2
     = true.
Proof.
  destruct (other_events_pass Sample.linkEdit
              (Sample.mouse KeyPress ShiftModifier NoButton 0 0)) as [Hkey _].
  destruct (other_events_pass Sample.linkEdit
              (Sample.mouse Enter 0 NoButton 0 0)) as [_ Henter].
  split; [apply Hkey; reflexivity|].
  rewrite Henter; reflexivity.
Defined.

(** ** Further properties of highlighting *)

(** X9: after [setHighlight re font palette] the stored pattern is [re] and
    the widget is the one before; [highlight] is called when the stored
    pattern was different and only then, once, with the arguments given. *)
Theorem setHighlight_outcome (iw : ItemWidget) (re : QRegExp) (font : QFont)
    (palette : QPalette) :
  let result := setHighlight re font palette iw in
  m_re result.1 = re
  /\ m_widget result.1 = m_widget iw
  /\ (result.2 = [] <-> m_re iw = re)
  /\ (result.2 <> [] -> result.2 = [mkHighlight re font palette]).
Proof.
  cbv zeta. unfold setHighlight.
  destruct (QRegExp_eqb (m_re iw) re) eqn:Heq; simpl.
  - apply QRegExp_eqb_eq in Heq. repeat split; auto. congruence.
  - assert (Hne : m_re iw <> re).
    { intros Hsame. apply QRegExp_eqb_eq in Hsame. congruence. }
    repeat split; auto; [discriminate | contradiction].
Qed.

(** X10: on an item widget fresh from its constructor, a request to
    highlight the default (empty) pattern is dropped: [highlight] is not
    called and nothing changes. *)
Theorem fresh_widget_skips_default_pattern (w : QWidget) (font : QFont)
    (palette : QPalette) :
  setHighlight QRegExp_default font palette (ItemWidget_new w)
  = (ItemWidget_new w, []).
Proof.
  unfold setHighlight.
  replace (m_re (ItemWidget_new w)) with QRegExp_default by reflexivity.
  rewrite QRegExp_eqb_refl. reflexivity.
Qed.

Lemma last_default_irrelevant {A} (l : list A) (d d' : A) :
  l <> [] -> List.last l d = List.last l d'.
Proof.
  induction l as [| b l IH]; intros Hne; [contradiction|].
  destruct l as [| c l]; [reflexivity|].
  change (List.last (c :: l) d = List.last (c :: l) d').
  apply IH. discriminate.
Qed.

Lemma setHighlights_stored (requests : list Highlight) (iw : ItemWidget) :
  m_re (setHighlights requests iw).1 = List.last (map hl_re requests) (m_re iw)
  /\ m_widget (setHighlights requests iw).1 = m_widget iw.
Proof.
  revert iw. induction requests as [| r rest IH]; intros iw.
  - split; reflexivity.
  - cbn [setHighlights].
    assert (Hone : m_re (setHighlight (hl_re r) (hl_font r) (hl_palette r) iw).1
                   = hl_re r
                   /\ m_widget (setHighlight (hl_re r) (hl_font r) (hl_palette r) iw).1
                      = m_widget iw).
    { unfold setHighlight.
      destruct (QRegExp_eqb (m_re iw) (hl_re r)) eqn:Heq; simpl; [|auto].
      apply QRegExp_eqb_eq in Heq. auto. }
    destruct (setHighlight (hl_re r) (hl_font r) (hl_palette r) iw)
      as [iw1 first]. simpl in Hone. destruct Hone as [Hre Hw].
    specialize (IH iw1).
    destruct (setHighlights rest iw1) as [iw2 more]. simpl in IH |- *.
    destruct IH as [IHre IHw]. rewrite IHre, IHw, Hre, Hw.
    split; [|reflexivity].
    destruct rest as [| r' rest']; [reflexivity|].
    cbn [map].
    change (List.last (hl_re r' :: map hl_re rest') (hl_re r)
            = List.last (hl_re r' :: map hl_re rest') (m_re iw)).
    apply last_default_irrelevant. discriminate.
Qed.

(** X11: over a run of highlight requests [highlight] is called once per
    change of pattern, however the fonts and palettes vary; at the end the
    pattern of the last request is stored and the widget is the one
    before. *)
Theorem setHighlights_counts_changes (requests : list Highlight)
    (iw : ItemWidget) :
  let result := setHighlights requests iw in
  length result.2 = patternChanges (m_re iw) (map hl_re requests)
  /\ m_re result.1 = List.last (map hl_re requests) (m_re iw)
  /\ m_widget result.1 = m_widget iw.
Proof.
  cbv zeta. split; [|apply setHighlights_stored].
  revert iw. induction requests as [| r rest IH]; intros iw.
  - reflexivity.
  - cbn [setHighlights map patternChanges].
    assert (Hone :
      m_re (setHighlight (hl_re r) (hl_font r) (hl_palette r) iw).1 = hl_re r
      /\ length (setHighlight (hl_re r) (hl_font r) (hl_palette r) iw).2
         = if QRegExp_eqb (m_re iw) (hl_re r) then 0%nat else 1%nat).
    { unfold setHighlight.
      destruct (QRegExp_eqb (m_re iw) (hl_re r)) eqn:Heq; simpl; [|auto].
      apply QRegExp_eqb_eq in Heq. auto. }
    destruct (setHighlight (hl_re r) (hl_font r) (hl_palette r) iw)
      as [iw1 first]. simpl in Hone. destruct Hone as [Hre Hlen].
    specialize (IH iw1). rewrite Hre in IH.
    destruct (setHighlights rest iw1) as [iw2 more]. simpl in IH |- *.
    rewrite length_app, Hlen, IH. reflexivity.
Qed.

(** ** Further properties of the widget sizes *)


(** X12: the constructor names the widget ["item"], takes it out of the
    focus chain, refuses drops, limits it to 2048 by 2048 and starts with
    the default pattern; a widget whose minimum size fits in that limit
    is no larger than the limit afterwards. *)
Theorem ItemWidget_new_limits (w : QWidget) :
  let iw := ItemWidget_new w in
  objectName (widget iw) = "item"
  /\ focusPolicy (widget iw) = NoFocus
  /\ acceptDrops (widget iw) = false
  /\ maximumSize (widget iw) = mkQSize 2048 2048
  /\ m_re iw = QRegExp_default
  /\ (width (minimumSize w) <= 2048 -> width (size (widget iw)) <= 2048)
  /\ (height (minimumSize w) <= 2048 -> height (size (widget iw)) <= 2048).
Proof.
  cbv zeta. unfold ItemWidget_new, widget. simpl.
  change (constraint 2048) with 2048.
  repeat split; intros; lia.
Qed.

Lemma ItemWidget_new_limits_witness :
  let big :=
    mkQWidget "" StrongFocus true false (mkQSize 10 10)
      (mkQSize QWIDGETSIZE_MAX QWIDGETSIZE_MAX) (mkQSize 5000 100)
      (mkQSize 640 16) (fun _ => -1) in
  size (widget (ItemWidget_new big)) = mkQSize 2048 100
  /\ width (size (widget (ItemWidget_new big))) <= 2048.
Proof.
  cbv zeta. split; [reflexivity|].
  match goal with
  | |- width (size (widget (ItemWidget_new ?b))) <= _ =>
      destruct (ItemWidget_new_limits b) as (_ & _ & _ & _ & _ & Hw & _)
  end.
  apply Hw. simpl. lia.
Defined.














(** ** Further properties of the editor data binding *)

(** X16: [setEditorData] hands back an editor of the kind it was given; a
    text edit comes back with the document the toolkit built from the HTML
    of the item (when the item has HTML) or else from its text, and with
    all of that document selected. *)
Theorem setEditorData_selects_all `{TextEditOps} (editor : QWidgetPtr)
    (index : QModelIndex) :
  (is_Some (qobject_cast (setEditorData editor index))
   <-> is_Some (qobject_cast editor))
  /\ (forall textEdit, editor = TextEditWidget textEdit ->
      exists textEdit',
        setEditorData editor index = TextEditWidget textEdit'
        /\ document textEdit' =
             document
               (if toBool (index_data index contentType_hasHtml) then
                  setHtml (toString (index_data index contentType_html)) textEdit
                else setPlainText (toString (index_data index EditRole)) textEdit)
        /\ anchor (textCursor textEdit') = 0
        /\ position (textCursor textEdit') =
             Z.of_nat (String.length (toPlainText (document textEdit')))
        /\ hasSelection (textCursor textEdit') =
             negb (isEmpty (toPlainText (document textEdit')))).
Proof.
  split.
  - unfold setEditorData.
    destruct editor as [| name | textEdit]; simpl; [tauto | tauto |].
    split; intros _; eauto.
  - intros textEdit ->. unfold setEditorData. simpl qobject_cast. cbv iota beta.
    eexists. split; [reflexivity|].
    set (loaded := if toBool _ then _ else _).
    unfold selectAll, hasSelection. simpl.
    repeat split.
    destruct (toPlainText (document loaded)); reflexivity.
Qed.

Lemma setEditorData_selects_all_witness :
  exists textEdit',
    @setEditorData Sample.ops (TextEditWidget Sample.emptyEdit) Sample.abcIndex
      = TextEditWidget textEdit'
    /\ textCursor textEdit' = mkQTextCursor 0 3
    /\ hasSelection (textCursor textEdit') = true.
Proof.
  destruct (@setEditorData_selects_all Sample.ops
              (TextEditWidget Sample.emptyEdit) Sample.abcIndex) as [_ Hall].
  destruct (Hall Sample.emptyEdit eq_refl)
    as (textEdit' & Hset & Hdoc & Ha & Hp & Hsel).
  exists textEdit'. split; [exact Hset|].
  injection Hset as <-. split; reflexivity.
Defined.

(** X17: after [setModelData] the editor has no changes to report,
    whatever editor it is and whether or not it had any before. *)
Theorem setModelData_clears_changes (editor : QWidgetPtr)
    (model : QAbstractItemModel) (index : QModelIndex) :
  hasChanges (setModelData editor model index).2 = false.
Proof.
  unfold setModelData, hasChanges.
  destruct editor as [| name | textEdit]; reflexivity.
Qed.

(** X18: a commit writes no content type but ["text/plain"] and
    ["text/html"], adds its two writes after those the model already had,
    and on the side of the editor changes the modified flag only: text,
    HTML and formats of the document, the text cursor, the interaction
    flags and the rest of the text edit are as before. *)
Theorem setModelData_touches_two_formats (textEdit : QTextEdit)
    (model : QAbstractItemModel) (index : QModelIndex) :
  let result := setModelData (TextEditWidget textEdit) model index in
  exists (data : QVariantMap) (textEdit' : QTextEdit),
    writes result.1 =
      (writes model ++
         [mkSetData index (VString "") EditRole;
          mkSetData index (VMap data) contentType_updateData])%list
    /\ (forall key, is_Some (data !! key) ->
                    key = "text/plain" \/ key = "text/html")
    /\ result.2 = TextEditWidget textEdit'
    /\ textEdit' =
         setDocument
           (mkQTextDocument (toPlainText (document textEdit))
              (toHtml (document textEdit)) (allFormats (document textEdit))
              false) textEdit.
Proof.
  cbv zeta. rewrite setModelData_textEdit. cbv zeta. simpl.
  eexists. eexists. split; [reflexivity|]. split; [|split; reflexivity].
  intros key [v Hv].
  destruct (decide (key = "text/plain")) as [| Hplain]; [auto|].
  destruct (decide (key = "text/html")) as [| Hhtml]; [auto|].
  exfalso. destruct (containsRichText (document textEdit)).
  - rewrite !lookup_insert_ne, lookup_empty in Hv by congruence. discriminate.
  - rewrite lookup_insert_ne, lookup_empty in Hv by congruence. discriminate.
Qed.

(** X19: committing twice in a row writes the same records twice and
    leaves the editor as the first commit left it: a commit does not
    depend on the modified flag it clears. *)
Theorem setModelData_repeatable (editor : QWidgetPtr)
    (model : QAbstractItemModel) (index : QModelIndex) :
  let first := setModelData editor model index in
  let second := setModelData first.2 first.1 index in
  exists records : list SetData,
    writes first.1 = (writes model ++ records)%list
    /\ writes second.1 = (writes model ++ records ++ records)%list
    /\ second.2 = first.2.
Proof.
  cbv zeta. destruct editor as [| name | textEdit].
  - exists []. simpl. rewrite !app_nil_r. auto.
  - exists []. simpl. rewrite !app_nil_r. auto.
  - pose proof (setModelData_textEdit textEdit model index) as Hfirst.
    cbv zeta in Hfirst. rewrite Hfirst. cbn [fst snd].
    match goal with
    | |- context [setModelData (TextEditWidget ?e) ?m index] =>
        pose proof (setModelData_textEdit e m index) as Hsecond
    end.
    cbv zeta in Hsecond. rewrite Hsecond. cbn [fst snd writes].
    eexists. split; [reflexivity|]. split.
    + rewrite <- app_assoc. reflexivity.
    + reflexivity.
Qed.

(** ** Further properties of pasting *)

Lemma findFormat_sound (formats : list QString) (source : QMimeData) :
  (forall format, In format formats -> format <> "") ->
  findFormat formats source <> "" ->
  In (findFormat formats source) formats
  /\ hasFormat source (findFormat formats source) = true.
Proof.
  induction formats as [| first rest IH]; intros Hne Hfound; simpl in *.
  - contradiction.
  - destruct (hasFormat source first) eqn:Hhas.
    + auto.
    + destruct IH as [Hin Hoffer]; auto.
Qed.

Lemma findFormat_empty (formats : list QString) (source : QMimeData) :
  (forall format, In format formats -> format <> "") ->
  findFormat formats source = "" ->
  forall format, In format formats -> hasFormat source format = false.
Proof.
  induction formats as [| first rest IH]; intros Hne Hnone format Hin;
    simpl in *.
  - contradiction.
  - destruct (hasFormat source first) eqn:Hhas.
    + exfalso. apply (Hne first); auto.
    + destruct Hin as [<- | Hin]; [exact Hhas|]. apply IH; auto.
Qed.

Lemma imageFormats_nonempty (format : QString) :
  In format imageFormats -> format <> "".
Proof.
  unfold imageFormats. simpl.
  intros [<- | [<- | [<- | [<- | [<- | []]]]]]; discriminate.
Qed.

(** X20: [findImageFormat] never names a content type the payload does not
    offer: its result is empty exactly when the payload offers none of the
    five image types, and is otherwise one of the five that the payload
    offers. *)
Theorem findImageFormat_sound (source : QMimeData) :
  (findImageFormat source = ""
   <-> forall format, In format imageFormats ->
                      hasFormat source format = false)
  /\ (findImageFormat source <> "" ->
      In (findImageFormat source) imageFormats
      /\ hasFormat source (findImageFormat source) = true).
Proof.
  split; [split|].
  - apply findFormat_empty. exact imageFormats_nonempty.
  - apply findFormat_none.
  - apply findFormat_sound. exact imageFormats_nonempty.
Qed.

(** X21: the editor accepts every payload that has an image and every
    payload the plain [QTextEdit] accepts; yet a payload whose image comes
    in none of the five content types is not embedded as an image: it goes
    to the paste of the plain [QTextEdit]. *)
Theorem image_without_known_type `{TextEditOps} (source : QMimeData)
    (edit : QTextEdit) :
  (canInsertFromMimeData source edit = true
   <-> hasImage source = true
       \/ QTextEdit_canInsertFromMimeData source edit = true)
  /\ (hasImage source = true ->
      (forall format, In format imageFormats ->
                      hasFormat source format = false) ->
      canInsertFromMimeData source edit = true
      /\ insertFromMimeData source edit =
           QTextEdit_insertFromMimeData source edit).
Proof.
  split.
  - unfold canInsertFromMimeData. apply orb_true_iff.
  - intros Himage Hnone. split.
    + unfold canInsertFromMimeData. rewrite Himage. reflexivity.
    + unfold insertFromMimeData, findImageFormat.
      rewrite (findFormat_none _ _ Hnone). reflexivity.
Qed.

Lemma image_without_known_type_witness :
  let tiff := mkQMimeData (<["image/tiff" := "II*"]> ∅) true in
  @canInsertFromMimeData Sample.ops tiff Sample.emptyEdit = true
  /\ @insertFromMimeData Sample.ops tiff Sample.emptyEdit =
       @QTextEdit_insertFromMimeData Sample.ops tiff Sample.emptyEdit.
Proof.
  cbv zeta.
  match goal with
  | |- canInsertFromMimeData ?s ?e = true /\ _ =>
      destruct (@image_without_known_type Sample.ops s e) as [_ Hpaste]
  end.
  apply Hpaste; [reflexivity|].
  intros format Hin. simpl in Hin.
  repeat (destruct Hin as [<- | Hin]; [reflexivity|]). destruct Hin.
Defined.

Lemma base64_digit_char (n : N) : isBase64Char (base64_digit n) = true.
Proof.
  unfold base64_digit. remember (N.to_nat n) as k eqn:Hk. clear Hk n.
  do 64 (destruct k as [| k]; [reflexivity|]).
  reflexivity.
Qed.

Lemma toBase64_chars (s : QByteArray) :
  forallb isBase64Char (list_ascii_of_string (toBase64 s)) = true.
Proof.
  revert s. fix IH 1. intros [| a [| b [| c r]]].
  - reflexivity.
  - cbn [toBase64 list_ascii_of_string forallb].
    rewrite !base64_digit_char. reflexivity.
  - cbn [toBase64 list_ascii_of_string forallb].
    rewrite !base64_digit_char. reflexivity.
  - cbn [toBase64 list_ascii_of_string forallb].
    rewrite !base64_digit_char. apply IH.
Qed.

(** The output of [toBase64] has four characters for every three bytes
    begun. *)
Lemma toBase64_length (s : QByteArray) :
  String.length (toBase64 s)
  = (4 * ((String.length s + 2) / 3))%nat.
Proof.
  revert s. fix IH 1. intros [| a [| b [| c r]]]; try reflexivity.
  cbn [toBase64 String.length]. rewrite IH.
  replace (S (S (S (String.length r))) + 2)%nat
    with ((String.length r + 2) + 1 * 3)%nat by lia.
  rewrite Nat.div_add by discriminate. lia.
Qed.

(** X22: when the payload offers one of the five image types, what is
    inserted is one [img] tag whose source is a data URI of that type; the
    bytes of the image appear in it as base64 characters only, so they can
    neither end the attribute nor add markup. *)
Theorem inline_image_is_well_formed `{TextEditOps} (source : QMimeData)
    (edit : QTextEdit) :
  findImageFormat source <> "" ->
  exists mime payload,
    insertFromMimeData source edit =
      insertHtml
        ("<img src=" ++ dquote ++ "data:" ++ mime ++ ";base64," ++ payload
           ++ dquote ++ " />") edit
    /\ In mime imageFormats
    /\ hasFormat source mime = true
    /\ forallb isBase64Char (list_ascii_of_string payload) = true
    /\ String.length payload
       = (4 * ((String.length (data source mime) + 2) / 3))%nat
    /\ isBase64Char (ascii_of_nat 34) = false
    /\ isBase64Char "<"%char = false /\ isBase64Char ">"%char = false.
Proof.
  intros Hfound.
  destruct (findFormat_sound imageFormats source imageFormats_nonempty Hfound)
    as [Hin Hoffer].
  exists (findImageFormat source), (toBase64 (data source (findImageFormat source))).
  split.
  - unfold insertFromMimeData.
    apply isEmpty_false in Hfound. rewrite Hfound. reflexivity.
  - split; [exact Hin|]. split; [exact Hoffer|].
    split; [apply toBase64_chars|]. split; [apply toBase64_length|].
    repeat split.
Qed.

Lemma inline_image_is_well_formed_witness :
  exists mime payload,
    @insertFromMimeData Sample.ops Sample.png_jpeg Sample.emptyEdit =
      @insertHtml Sample.ops
        ("<img src=" ++ dquote ++ "data:" ++ mime ++ ";base64," ++ payload
           ++ dquote ++ " />") Sample.emptyEdit
    /\ In mime imageFormats
    /\ forallb isBase64Char (list_ascii_of_string payload) = true.
Proof.
  destruct (@inline_image_is_well_formed Sample.ops Sample.png_jpeg
              Sample.emptyEdit) as (mime & payload & Hins & Hin & _ & Hchars & _).
  - discriminate.
  - exists mime, payload. auto.
Defined.

(** ** The application object *)

Section AppProperties.

Context `{AppPlatform}.

(** A closed application ignores every exit. *)
Lemma App_exits_closed (exitCodes : list Z) (a : App) (p : Process) :
  App_wasClosed a = true -> App_exits exitCodes a p = (a, p).
Proof.
  intros Hclosed. induction exitCodes as [| c rest IH]; simpl.
  - reflexivity.
  - unfold App_exit. rewrite Hclosed. exact IH.
Qed.

Lemma App_exits_open (c : Z) (rest : list Z) (a : App) (p : Process) :
  App_wasClosed a = false ->
  App_exits (c :: rest) a p = (mkApp c true, QCoreApplication_exit c p).
Proof.
  intros Hopen. simpl. unfold App_exit. rewrite Hopen.
  apply App_exits_closed. reflexivity.
Qed.

(** X23: of a run of calls of [exit] on an open application the first one
    counts: its code is stored, the application is closed, and
    [QCoreApplication::exit] is called once, with that code; the later
    calls do nothing.  On a closed application no call does anything. *)
Theorem App_first_exit_wins (exitCodes : list Z) (a : App) (p : Process) :
  let result := App_exits exitCodes a p in
  (App_wasClosed a = true -> result = (a, p))
  /\ (App_wasClosed a = false ->
      forall c rest, exitCodes = c :: rest ->
        m_exitCode result.1 = c
        /\ App_wasClosed result.1 = true
        /\ exitCalls result.2 = (exitCalls p ++ [c])%list).
Proof.
  cbv zeta. split.
  - apply App_exits_closed.
  - intros Hopen c rest ->. rewrite (App_exits_open c rest a p Hopen).
    repeat split.
Qed.

Lemma App_new_open (sessionName : QString) (p : Process) :
  (App_new sessionName p).1 = mkApp 0 false.
Proof.
  unfold App_new.
  destruct (negb (isEmpty sessionName)); cbv beta iota zeta;
    destruct (HAS_TESTS && _); cbv beta iota zeta; reflexivity.
Qed.

(** X24: an application fresh from its constructor is open, and [exec]
    runs the event loop; once [exit] was called, [exec] returns the code of
    the first call without entering the event loop: it lets the pending
    events be processed and returns. *)
Theorem App_exec_after_exit (sessionName : QString) (p : Process)
    (c : Z) (rest : list Z) :
  let a := (App_new sessionName p).1 in
  let p1 := (App_new sessionName p).2 in
  let closed := App_exits (c :: rest) a p1 in
  App_wasClosed a = false
  /\ App_exec a p1 = QCoreApplication_exec p1
  /\ App_exec closed.1 closed.2
     = (c, QCoreApplication_processEvents (QCoreApplication_exit c p1)).
Proof.
  cbv zeta. rewrite App_new_open.
  split; [reflexivity|]. split; [reflexivity|].
  rewrite App_exits_open by reflexivity. reflexivity.
Qed.

End AppProperties.

Lemma App_first_exit_wins_witness :
  let started := @App_new Sample.platform "" Sample.userProcess in
  let result := App_exits [3; 0; 7] started.1 started.2 in
  m_exitCode result.1 = 3
  /\ App_wasClosed result.1 = true
  /\ exitCalls result.2 = [3]
  /\ App_exits [5] result.1 result.2 = result.
Proof.
  cbv zeta.
  match goal with
  | |- context [App_exits [3; 0; 7] ?a ?p] =>
      destruct (App_first_exit_wins [3; 0; 7] a p) as [_ Hopen];
      destruct (Hopen eq_refl 3 [0; 7] eq_refl) as (Hcode & Hclosed & Hcalls);
      destruct (App_first_exit_wins [5]
                  (App_exits [3; 0; 7] a p).1 (App_exits [3; 0; 7] a p).2)
        as [Hignored _]
  end.
  split; [exact Hcode|]. split; [exact Hclosed|]. split; [exact Hcalls|].
  rewrite (Hignored Hclosed). symmetry. apply surjective_pairing.
Defined.

(** *** Session names *)

Lemma append_cons (c : ascii) (a b : string) :
  String c a ++ b = String c (a ++ b).
Proof. reflexivity. Qed.

Lemma append_nil (b : string) : "" ++ b = b.
Proof. reflexivity. Qed.


Lemma append_length (a b : string) :
  String.length (a ++ b) = (String.length a + String.length b)%nat.
Proof.
  induction a as [| c a IH]; [reflexivity|].
  rewrite append_cons. simpl. rewrite IH. reflexivity.
Qed.

Lemma append_inv_tail (a b s : string) : a ++ s = b ++ s -> a = b.
Proof.
  revert b. induction a as [| c a IH]; intros [| d b] Heq.
  - reflexivity.
  - apply (f_equal String.length) in Heq.
    rewrite !append_length in Heq. simpl in Heq. lia.
  - apply (f_equal String.length) in Heq.
    rewrite !append_length in Heq. simpl in Heq. lia.
  - rewrite !append_cons in Heq. injection Heq as -> Heq. f_equal. auto.
Qed.

Lemma append_nil_r (a : string) : a ++ "" = a.
Proof.
  induction a as [| x a IH]; [reflexivity|].
  rewrite append_cons, IH. reflexivity.
Qed.

Lemma append_assoc (a b c : string) : (a ++ b) ++ c = a ++ (b ++ c).
Proof.
  induction a as [| x a IH]; [reflexivity|].
  rewrite !append_cons, IH. reflexivity.
Qed.

(** The session name: ["copyq"], then ["-"] and the name asked for when
    one is given, then [".test"] in test mode. *)
Lemma sessionOf_inj (name name' : QString) (testing : bool) :
  sessionOf name testing = sessionOf name' testing -> name = name'.
Proof.
  assert (Hmid : forall n n' : QString,
            (if negb (isEmpty n) then "copyq" ++ ("-" ++ n) else "copyq")
            = (if negb (isEmpty n') then "copyq" ++ ("-" ++ n') else "copyq")
            -> n = n').
  { intros [| c n] [| c' n']; simpl; intros Heq;
      try reflexivity; try discriminate.
    injection Heq as -> ->. reflexivity. }
  unfold sessionOf. destruct testing; intros Heq.
  - apply Hmid. apply (append_inv_tail _ _ ".test"). exact Heq.
  - apply Hmid. exact Heq.
Qed.

Lemma sessionOf_test_suffix (name : QString) :
  name <> "" -> sessionOf name true = sessionOf (name ++ ".test") false.
Proof.
  intros Hname. unfold sessionOf.
  destruct name as [| c name]; [contradiction|]. simpl.
  rewrite !append_assoc. reflexivity.
Qed.

Section AppConstructor.

Context `{AppPlatform}.

Lemma installTranslator_frame (p : Process) :
  organizationName (installTranslator p) = organizationName p
  /\ applicationName (installTranslator p) = applicationName p
  /\ settings (installTranslator p) = settings p
  /\ properties (installTranslator p) = properties p.
Proof. repeat split. Qed.




(** The constructor, by its branches: the process after the names are
    set and the platform code has run, and the reset of the test settings
    on top of it in test mode. *)
Lemma App_new_process (sessionName : QString) (p : Process) :
  exists q,
    organizationName q = sessionOf sessionName (testingOf p)
    /\ applicationName q = sessionOf sessionName (testingOf p)
    /\ settings q = settings p
    /\ systemEnvironment q = systemEnvironment p
    /\ (App_new sessionName p).2 =
         let q' := installTranslator (platform_loadSettings q) in
         if testingOf p
            && env_contains (systemEnvironment p) "COPYQ_TEST_SETTINGS"
         then
           resetTestSettings (env_value (systemEnvironment p) "COPYQ_TEST_ID")
             (systemEnvironment p) q'
         else q'.
Proof.
  unfold App_new, testingOf, sessionOf.
  destruct (isEmpty sessionName); simpl negb; cbv iota beta zeta;
    cbn [systemEnvironment setProperty];
    destruct (HAS_TESTS && negb (isEmpty (env_value (systemEnvironment p)
                                            "COPYQ_TEST_ID")));
    cbv iota beta zeta;
    destruct (Q_OS_UNIX && negb (UnixSignalHandler_create _));
    eexists; (split; [|split; [|split; [|split; [|reflexivity]]]]);
    reflexivity.
Qed.

Lemma App_new_named (sessionName : QString) (p : Process) :
  (forall q, organizationName (platform_loadSettings q) = organizationName q
             /\ applicationName (platform_loadSettings q) = applicationName q) ->
  organizationName (App_new sessionName p).2 = sessionOf sessionName (testingOf p)
  /\ applicationName (App_new sessionName p).2
     = sessionOf sessionName (testingOf p).
Proof.
  intros Hnames.
  destruct (App_new_process sessionName p) as (q & Horg & Happ & _ & _ & ->).
  destruct (Hnames q) as [Horg' Happ']. cbv zeta.
  destruct (testingOf p && env_contains _ _);
    cbn [resetTestSettings QSettings_setStore organizationName applicationName
         installTranslator installTranslatorFile setDefaultLocale
         QCoreApplication_installTranslator];
    rewrite Horg', Happ'; auto.
Qed.

(** X25: when the platform code leaves the names of the application
    alone, the constructor names organization and application alike:
    ["copyq"], then ["-"] and the session name when one is given, then
    [".test"] in test mode. *)
Theorem App_new_names (sessionName : QString) (p : Process) :
  (forall q, organizationName (platform_loadSettings q) = organizationName q
             /\ applicationName (platform_loadSettings q) = applicationName q) ->
  let p' := (App_new sessionName p).2 in
  let testing := testingOf p in
  organizationName p' = applicationName p'
  /\ applicationName p' =
       "copyq" ++ (if isEmpty sessionName then "" else "-" ++ sessionName)
         ++ (if testing then ".test" else "").
Proof.
  intros Hnames. cbv zeta.
  destruct (App_new_named sessionName p Hnames) as [-> ->].
  split; [reflexivity|]. unfold sessionOf.
  destruct sessionName as [| c rest], (testingOf p); simpl isEmpty;
    cbv iota; try reflexivity.
  rewrite (append_nil_r ("-" ++ String c rest)). reflexivity.
Qed.

(** X26: with such platform code, two applications started in one mode
    get the same names only when they were given the same session name;
    across the modes names can meet: the test session of a name is named
    like the ordinary session of that name with [".test"] appended. *)
Theorem App_new_sessions_distinct (sessionName sessionName' : QString)
    (p p' : Process) :
  (forall q, organizationName (platform_loadSettings q) = organizationName q
             /\ applicationName (platform_loadSettings q) = applicationName q) ->
  (testingOf p = testingOf p' ->
   applicationName (App_new sessionName p).2
   = applicationName (App_new sessionName' p').2 ->
   sessionName = sessionName')
  /\ (testingOf p = true -> testingOf p' = false -> sessionName <> "" ->
      applicationName (App_new sessionName p).2
      = applicationName (App_new (sessionName ++ ".test") p').2).
Proof.
  intros Hnames.
  destruct (App_new_named sessionName p Hnames) as [_ Hone].
  split.
  - intros Hmode.
    destruct (App_new_named sessionName' p' Hnames) as [_ Htwo].
    rewrite Hone, Htwo, Hmode. apply sessionOf_inj.
  - intros Htest Huser Hname.
    destruct (App_new_named (sessionName ++ ".test") p' Hnames) as [_ Htwo].
    rewrite Hone, Htwo, Htest, Huser. apply sessionOf_test_suffix. exact Hname.
Qed.

(** X27: outside test mode, and in test mode without
    [COPYQ_TEST_SETTINGS], the constructor writes no settings: when the
    platform code leaves the stores alone, they are after the constructor
    what they were before. *)
Theorem App_new_keeps_settings (sessionName : QString) (p : Process) :
  (forall q, settings (platform_loadSettings q) = settings q) ->
  testingOf p = false
  \/ env_contains (systemEnvironment p) "COPYQ_TEST_SETTINGS" = false ->
  settings (App_new sessionName p).2 = settings p.
Proof.
  intros Hsettings Hmode.
  destruct (App_new_process sessionName p) as (q & _ & _ & Hq & _ & ->).
  cbv zeta.
  assert (Hcond : testingOf p
                  && env_contains (systemEnvironment p) "COPYQ_TEST_SETTINGS"
                  = false).
  { destruct Hmode as [-> | ->]; [reflexivity | apply andb_false_r]. }
  rewrite Hcond.
  destruct (installTranslator_frame (platform_loadSettings q))
    as (_ & _ & -> & _).
  rewrite Hsettings. exact Hq.
Qed.


(** X29: [installTranslator] takes the language from the settings and, when
    none is set, from the system; it installs Qt's translation for it and
    then CopyQ's, after the translators already installed, and makes it
    the default locale; names, settings and properties stay as they
    are. *)
Theorem installTranslator_locale (p : Process) :
  let language := toString (QSettings_value "Options/language" p) in
  let p' := installTranslator p in
  exists locale,
    (language <> "" -> locale = language)
    /\ (language = "" -> locale = systemLocale p)
    /\ translators p' =
         (translators p ++
            [mkQTranslator ("qt_" ++ locale) (translationsPath p);
             mkQTranslator ("copyq_" ++ locale) ":/translations"])%list
    /\ defaultLocale p' = locale
    /\ organizationName p' = organizationName p
    /\ applicationName p' = applicationName p
    /\ settings p' = settings p
    /\ properties p' = properties p.
Proof.
  cbv zeta. unfold installTranslator. cbv zeta.
  set (language := toString (QSettings_value "Options/language" p)).
  exists (if isEmpty language then systemLocale p else language).
  destruct language as [| c rest] eqn:Hlanguage; simpl isEmpty; cbv iota.
  - split; [congruence|]. split; [reflexivity|].
    unfold installTranslatorFile, QCoreApplication_installTranslator,
      setDefaultLocale. simpl. rewrite <- app_assoc. repeat split.
  - split; [reflexivity|]. split; [discriminate|].
    unfold installTranslatorFile, QCoreApplication_installTranslator,
      setDefaultLocale. simpl. rewrite <- app_assoc. repeat split.
Qed.

End AppConstructor.

Lemma App_new_names_witness :
  let p' := (@App_new Sample.platform "work" Sample.testProcess).2 in
  organizationName p' = "copyq-work.test"
  /\ applicationName p' = "copyq-work.test"
  /\ applicationName (@App_new Sample.platform "" Sample.userProcess).2 = "copyq".
Proof.
  cbv zeta.
  destruct (@App_new_names Sample.platform "work" Sample.testProcess)
    as [Horg Happ]; [intros q; split; reflexivity|].
  destruct (@App_new_names Sample.platform "" Sample.userProcess)
    as [_ Huser]; [intros q; split; reflexivity|].
  rewrite Horg, Happ, Huser. repeat split.
Defined.

Lemma App_new_sessions_distinct_witness :
  applicationName (@App_new Sample.platform "work" Sample.testProcess).2
  = applicationName (@App_new Sample.platform "work.test" Sample.userProcess).2.
Proof.
  destruct (@App_new_sessions_distinct Sample.platform "work" "work"
              Sample.testProcess Sample.userProcess) as [_ Hmeet].
  - intros q. split; reflexivity.
  - apply Hmeet; [reflexivity | reflexivity | discriminate].
Defined.

Lemma App_new_keeps_settings_witness :
  @testingOf Sample.platform Sample.userProcess = false
  /\ settings (@App_new Sample.platform "work" Sample.userProcess).2
     = settings Sample.userProcess.
Proof.
  split; [reflexivity|].
  apply (@App_new_keeps_settings Sample.platform "work" Sample.userProcess).
  - intros q. reflexivity.
  - left. reflexivity.
Defined.


(** ** The interaction modifier *)

Lemma land_pow2 (m n : Z) :
  0 <= n -> Z.land m (2 ^ n) = if Z.testbit m n then 2 ^ n else 0.
Proof.
  intros Hn. apply Z.bits_inj'. intros k Hk.
  rewrite Z.land_spec, Z.pow2_bits_eqb by lia.
  destruct (Z.eqb_spec n k) as [<- | Hne].
  - destruct (Z.testbit m n) eqn:Hbit.
    + rewrite Z.pow2_bits_true by lia. reflexivity.
    + rewrite Z.bits_0. reflexivity.
  - rewrite andb_false_r. destruct (Z.testbit m n).
    + rewrite Z.pow2_bits_false by lia. reflexivity.
    + rewrite Z.bits_0. reflexivity.
Qed.

Lemma canMouseInteract_bit (event : QEvent) :
  canMouseInteract event = Z.testbit (modifiers event) 25.
Proof.
  unfold canMouseInteract.
  change ShiftModifier with (2 ^ 25). rewrite land_pow2 by lia.
  destruct (Z.testbit (modifiers event) 25); reflexivity.
Qed.

(** X30: of the keyboard modifiers the Shift bit alone decides: two events
    of the same type, button and position whose modifiers agree on Shift
    are filtered alike, whatever Ctrl, Alt and the other modifiers are. *)
Theorem only_shift_matters (edit : QTextEdit) (event event' : QEvent) :
  type event' = type event ->
  button event' = button event ->
  pos event' = pos event ->
  Z.testbit (modifiers event') 25 = Z.testbit (modifiers event) 25 ->
  canMouseInteract event = Z.testbit (modifiers event) 25
  /\ filterMouseEvents edit event' = filterMouseEvents edit event.
Proof.
  intros Htype Hbutton Hpos Hshift.
  split; [apply canMouseInteract_bit|].
  assert (Hcan : canMouseInteract event' = canMouseInteract event)
    by (rewrite !canMouseInteract_bit; exact Hshift).
  unfold filterMouseEvents, filterMouseEvents_switch.
  rewrite Htype, Hbutton, Hpos, Hcan. reflexivity.
Qed.

Lemma only_shift_matters_witness :
  filterMouseEvents Sample.linkEdit
    (Sample.mouse MouseButtonPress (Z.lor ShiftModifier ControlModifier)
       LeftButton 40 15)
  = filterMouseEvents Sample.linkEdit
      (Sample.mouse MouseButtonPress ShiftModifier LeftButton 40 15).
Proof.
  apply (only_shift_matters Sample.linkEdit
           (Sample.mouse MouseButtonPress ShiftModifier LeftButton 40 15)
           (Sample.mouse MouseButtonPress (Z.lor ShiftModifier ControlModifier)
              LeftButton 40 15)); reflexivity.
Defined.
